(** * UDS data frames: headers, CCMP key derivation, CCMP encryption

    A shallow embedding of [src/core/hle/service/nwm/uds_data.cpp].

    The file follows the source top-down.  The C++ code composes three things
    that live outside it: the Crypto++ primitives (AES, MD5, CTR and CCM
    modes, the authenticated filters), the hardware key store, and a handful
    of packed structures declared in the neighbouring headers.  The Crypto++
    primitives are standard algorithms and are written out here (FIPS-197,
    RFC 1321, NIST SP 800-38A/C) and checked against their published test
    vectors; the key store is a function parameter; the structures whose
    declaration is not part of the translated file are reached through a
    [Layout] interface. *)

From Stdlib Require Import ZArith NArith List Lia Bool.
From Stdlib Require Import Strings.Byte.
Import ListNotations.

Set Implicit Arguments.

(* ================================================================== *)
(** * Bytes and machine integers *)
(* ================================================================== *)

Module Bytes.

Open Scope Z_scope.

(** [static_cast<u8>(z)]: keep the low eight bits. *)
Definition u8 (z : Z) : byte :=
  match Byte.of_N (Z.to_N (z mod 256)) with
  | Some b => b
  | None => x00
  end.

Definition u8_to_Z (b : byte) : Z := Z.of_N (Byte.to_N b).

(** Conversion of a value to [u16]. *)
Definition u16 (z : Z) : Z := z mod 65536.

(** [size_t] is a 64-bit unsigned integer; its arithmetic wraps. *)
Definition SIZE_MAX : Z := 2 ^ 64 - 1.
Definition size_t (z : Z) : Z := z mod 2 ^ 64.
Definition size_add (a b : Z) : Z := size_t (a + b).
Definition size_sub (a b : Z) : Z := size_t (a - b).

(** [v.size()] of a [std::vector<u8>]. *)
Definition size (v : list byte) : Z := Z.of_nat (length v).

(** Bitwise exclusive or of two bytes. *)
Definition byte_xor (a b : byte) : byte :=
  let '(a0, (a1, (a2, (a3, (a4, (a5, (a6, a7))))))) := Byte.to_bits a in
  let '(b0, (b1, (b2, (b3, (b4, (b5, (b6, b7))))))) := Byte.to_bits b in
  Byte.of_bits (xorb a0 b0, (xorb a1 b1, (xorb a2 b2, (xorb a3 b3,
               (xorb a4 b4, (xorb a5 b5, (xorb a6 b6, xorb a7 b7))))))).

(** The byte whose only set bit is bit [i] (0 is the least significant). *)
Definition bit_mask (i : nat) : byte := u8 (2 ^ Z.of_nat i).

Fixpoint bytes_eqb (a b : list byte) : bool :=
  match a, b with
  | [], [] => true
  | x :: a', y :: b' => Byte.eqb x y && bytes_eqb a' b'
  | _, _ => false
  end.

(** A fixed-size buffer of [n] bytes initialised from [l]: extra bytes are
    cut, missing ones are zero. *)
Definition resize (n : nat) (l : list byte) : list byte :=
  firstn n (l ++ repeat x00 n).

Fixpoint xor_bytes (a b : list byte) : list byte :=
  match a, b with
  | x :: a', y :: b' => byte_xor x y :: xor_bytes a' b'
  | _, _ => []
  end.

(** Big-endian encoding of the low [n] bytes of [z]. *)
Fixpoint be_bytes (n : nat) (z : Z) : list byte :=
  match n with
  | O => []
  | S n' => u8 (Z.shiftr z (8 * Z.of_nat n')) :: be_bytes n' z
  end.

(** Little-endian encoding of the low [n] bytes of [z]. *)
Fixpoint le_bytes (n : nat) (z : Z) : list byte :=
  match n with
  | O => []
  | S n' => u8 z :: le_bytes n' (Z.shiftr z 8)
  end.

(** The unsigned integer a byte string denotes, most significant first. *)
Definition be_value (l : list byte) : Z :=
  fold_left (fun acc b => acc * 256 + u8_to_Z b) l 0.

(** Replace byte [i] of [l] by [f] of it; nothing happens out of range. *)
Fixpoint update_nth (i : nat) (f : byte -> byte) (l : list byte) : list byte :=
  match l, i with
  | [], _ => []
  | x :: r, O => f x :: r
  | x :: r, S i' => x :: update_nth i' f r
  end.

(** Flip bit [bit] of byte [i]. *)
Definition flip_bit (i bit : nat) (l : list byte) : list byte :=
  update_nth i (fun x => byte_xor x (bit_mask bit)) l.

End Bytes.
Import Bytes.

(* ================================================================== *)
(** * Control flow: exceptions and invalid memory accesses *)
(* ================================================================== *)

(** The subclasses of [CryptoPP::Exception] the calls below can raise. *)
Inductive Exception : Type :=
| InvalidArgument
| InvalidKeyLength
| HashVerificationFailed.

(** What running a piece of the code yields: a value, a thrown
    [CryptoPP::Exception], or a read outside a buffer. *)
Inductive outcome (A : Type) : Type :=
| Ret (a : A)
| Throw (e : Exception)
| Fault.

Arguments Ret {A} a.
Arguments Throw {A} e.
Arguments Fault {A}.

Definition bind {A B : Type} (c : outcome A) (k : A -> outcome B) : outcome B :=
  match c with
  | Ret a => k a
  | Throw e => Throw e
  | Fault => Fault
  end.

Notation "x <- c ;; k" := (bind c (fun x => k))
  (at level 61, c at next level, right associativity).

(** [try { body } catch (CryptoPP::Exception&) { handler }]. *)
Definition try_catch {A : Type} (body : outcome A) (handler : Exception -> outcome A)
  : outcome A :=
  match body with
  | Throw e => handler e
  | other => other
  end.

(** Reading [len] bytes at [buf.data() + off]. *)
Definition buffer_read (buf : list byte) (off len : Z) : outcome (list byte) :=
  if ((0 <=? off) && (0 <=? len) && (off + len <=? size buf))%Z
  then Ret (firstn (Z.to_nat len) (skipn (Z.to_nat off) buf))
  else Fault.

(* ================================================================== *)
(** * Crypto++ primitives *)
(* ================================================================== *)

(** ** [CryptoPP::MD5] (RFC 1321) *)

Module MD5.

Open Scope Z_scope.

Definition DIGESTSIZE : nat := 16.

Definition w32 (z : Z) : Z := z mod 2 ^ 32.

Definition rotl32 (x s : Z) : Z :=
  Z.lor (w32 (Z.shiftl x s)) (Z.shiftr x (32 - s)).

Definition not32 (x : Z) : Z := Z.lxor x (2 ^ 32 - 1).

Definition T : list Z :=
  [ 0xd76aa478; 0xe8c7b756; 0x242070db; 0xc1bdceee; 0xf57c0faf; 0x4787c62a; 0xa8304613; 0xfd469501;
    0x698098d8; 0x8b44f7af; 0xffff5bb1; 0x895cd7be; 0x6b901122; 0xfd987193; 0xa679438e; 0x49b40821;
    0xf61e2562; 0xc040b340; 0x265e5a51; 0xe9b6c7aa; 0xd62f105d; 0x02441453; 0xd8a1e681; 0xe7d3fbc8;
    0x21e1cde6; 0xc33707d6; 0xf4d50d87; 0x455a14ed; 0xa9e3e905; 0xfcefa3f8; 0x676f02d9; 0x8d2a4c8a;
    0xfffa3942; 0x8771f681; 0x6d9d6122; 0xfde5380c; 0xa4beea44; 0x4bdecfa9; 0xf6bb4b60; 0xbebfbc70;
    0x289b7ec6; 0xeaa127fa; 0xd4ef3085; 0x04881d05; 0xd9d4d039; 0xe6db99e5; 0x1fa27cf8; 0xc4ac5665;
    0xf4292244; 0x432aff97; 0xab9423a7; 0xfc93a039; 0x655b59c3; 0x8f0ccc92; 0xffeff47d; 0x85845dd1;
    0x6fa87e4f; 0xfe2ce6e0; 0xa3014314; 0x4e0811a1; 0xf7537e82; 0xbd3af235; 0x2ad7d2bb; 0xeb86d391 ].

Definition shifts : list Z :=
  [ 7; 12; 17; 22; 7; 12; 17; 22; 7; 12; 17; 22; 7; 12; 17; 22;
    5; 9; 14; 20; 5; 9; 14; 20; 5; 9; 14; 20; 5; 9; 14; 20;
    4; 11; 16; 23; 4; 11; 16; 23; 4; 11; 16; 23; 4; 11; 16; 23;
    6; 10; 15; 21; 6; 10; 15; 21; 6; 10; 15; 21; 6; 10; 15; 21 ].

Definition le_value (l : list byte) : Z := be_value (rev l).

Fixpoint words (n : nat) (l : list byte) : list Z :=
  match n with
  | O => []
  | Datatypes.S n' => le_value (firstn 4 l) :: words n' (skipn 4 l)
  end.

Definition step (M : list Z) (st : Z * Z * Z * Z) (i : nat) : Z * Z * Z * Z :=
  let '(a, b, c, d) := st in
  let '(f, g) :=
    if (i <? 16)%nat then (Z.lor (Z.land b c) (Z.land (not32 b) d), i)
    else if (i <? 32)%nat then (Z.lor (Z.land d b) (Z.land (not32 d) c), (5 * i + 1) mod 16)%nat
    else if (i <? 48)%nat then (Z.lxor b (Z.lxor c d), (3 * i + 5) mod 16)%nat
    else (Z.lxor c (Z.lor b (not32 d)), (7 * i) mod 16)%nat in
  let f := w32 (f + a + nth i T 0 + nth g M 0) in
  (d, w32 (b + rotl32 f (nth i shifts 0)), b, c).

Definition Transform (st : Z * Z * Z * Z) (block : list byte) : Z * Z * Z * Z :=
  let M := words 16 block in
  let '(a, b, c, d) := st in
  let '(a', b', c', d') := fold_left (step M) (seq 0 64) st in
  (w32 (a + a'), w32 (b + b'), w32 (c + c'), w32 (d + d')).

Definition padding (len : nat) : list byte :=
  x80 :: repeat x00 ((119 - len mod 64) mod 64) ++ le_bytes 8 (8 * Z.of_nat len).

Fixpoint chunks64 (n : nat) (l : list byte) : list (list byte) :=
  match n with
  | O => []
  | Datatypes.S n' => firstn 64 l :: chunks64 n' (skipn 64 l)
  end.

Definition CalculateDigest (input : list byte) : list byte :=
  let padded := input ++ padding (length input) in
  let '(a, b, c, d) :=
    fold_left Transform (chunks64 (length padded / 64) padded)
      (0x67452301, 0xefcdab89, 0x98badcfe, 0x10325476) in
  le_bytes 4 a ++ le_bytes 4 b ++ le_bytes 4 c ++ le_bytes 4 d.

End MD5.

(** ** [CryptoPP::AES] (FIPS-197), encryption direction *)

Module AES.

Open Scope N_scope.

Definition BLOCKSIZE : nat := 16.

Definition IsValidKeyLength (n : nat) : bool :=
  (Nat.eqb n 16 || Nat.eqb n 24 || Nat.eqb n 32)%bool.

Definition xtime (a : N) : N :=
  N.lxor ((2 * a) mod 256) (if 128 <=? a then 27 else 0).

Fixpoint gmul_aux (k : nat) (a b : N) : N :=
  match k with
  | O => 0
  | S k' => N.lxor (if N.odd b then a else 0) (gmul_aux k' (xtime a) (N.div2 b))
  end.

Definition gmul : N -> N -> N := gmul_aux 8.
Definition gsq (a : N) : N := gmul a a.

(** The inverse in GF(2^8) is the 254th power. *)
Definition ginv (a : N) : N :=
  let a2 := gsq a in let a4 := gsq a2 in let a8 := gsq a4 in
  let a16 := gsq a8 in let a32 := gsq a16 in let a64 := gsq a32 in
  let a128 := gsq a64 in
  gmul a128 (gmul a64 (gmul a32 (gmul a16 (gmul a8 (gmul a4 a2))))).

Definition rotl8 (x k : N) : N :=
  N.lor ((N.shiftl x k) mod 256) (N.shiftr x (8 - k)).

Definition sbox_calc (a : N) : N :=
  let b := ginv a in
  N.lxor b (N.lxor (rotl8 b 1) (N.lxor (rotl8 b 2)
           (N.lxor (rotl8 b 3) (N.lxor (rotl8 b 4) 99)))).

Definition sbox_table : list N :=
  Eval vm_compute in map (fun i => sbox_calc (N.of_nat i)) (seq 0 256).

Definition SubByte (a : N) : N := nth (N.to_nat a) sbox_table 0.

Definition xor_words (a b : list N) : list N :=
  map (fun p => N.lxor (fst p) (snd p)) (combine a b).

Definition RotWord (w : list N) : list N :=
  match w with
  | a :: r => r ++ [a]
  | [] => []
  end.

Fixpoint rcon (i : nat) : N :=
  match i with
  | O => 0
  | S O => 1
  | S i' => xtime (rcon i')
  end.

Definition word_at (ws : list (list N)) (i : nat) : list N :=
  nth i ws [0; 0; 0; 0].

Fixpoint chunks4 (n : nat) (l : list N) : list (list N) :=
  match n with
  | O => []
  | S n' => firstn 4 l :: chunks4 n' (skipn 4 l)
  end.

(** [ws] holds the words w[0..i-1] of the key schedule; add [count] more. *)
Fixpoint expand (count Nk : nat) (ws : list (list N)) : list (list N) :=
  match count with
  | O => ws
  | S c =>
      let i := length ws in
      let temp := word_at ws (i - 1) in
      let temp :=
        if Nat.eqb (Nat.modulo i Nk) 0
        then xor_words (map SubByte (RotWord temp)) [rcon (Nat.div i Nk); 0; 0; 0]
        else if (Nat.ltb 6 Nk && Nat.eqb (Nat.modulo i Nk) 4)%bool
             then map SubByte temp
             else temp in
      expand c Nk (ws ++ [xor_words (word_at ws (i - Nk)) temp])
  end.

Definition KeyExpansion (key : list N) : list (list N) :=
  let Nk := Nat.div (length key) 4 in
  let Nr := (Nk + 6)%nat in
  expand (4 * (Nr + 1) - Nk) Nk (chunks4 Nk key).

(** The state is kept column by column, as the input block is. *)
Definition ShiftRows (s : list N) : list N :=
  map (fun i => nth (Nat.modulo i 4 + 4 * Nat.modulo (Nat.div i 4 + Nat.modulo i 4) 4) s 0)
      (seq 0 16).

Definition MixColumn (c : list N) : list N :=
  match c with
  | [a0; a1; a2; a3] =>
      [ N.lxor (xtime a0) (N.lxor (N.lxor (xtime a1) a1) (N.lxor a2 a3));
        N.lxor a0 (N.lxor (xtime a1) (N.lxor (N.lxor (xtime a2) a2) a3));
        N.lxor a0 (N.lxor a1 (N.lxor (xtime a2) (N.lxor (xtime a3) a3)));
        N.lxor (N.lxor (xtime a0) a0) (N.lxor a1 (N.lxor a2 (xtime a3))) ]
  | _ => c
  end.

Definition MixColumns (s : list N) : list N :=
  concat (map MixColumn (chunks4 4 s)).

Definition round_key (w : list (list N)) (r : nat) : list N :=
  concat (firstn 4 (skipn (4 * r) w)).

Definition AddRoundKey (w : list (list N)) (r : nat) (s : list N) : list N :=
  xor_words s (round_key w r).

Fixpoint rounds (w : list (list N)) (n r : nat) (s : list N) : list N :=
  match n with
  | O => s
  | S n' => rounds w n' (S r) (AddRoundKey w r (MixColumns (ShiftRows (map SubByte s))))
  end.

Definition Cipher (key block : list N) : list N :=
  let w := KeyExpansion key in
  let Nr := (Nat.div (length key) 4 + 6)%nat in
  let s := AddRoundKey w 0 block in
  let s := rounds w (Nr - 1) 1 s in
  AddRoundKey w Nr (ShiftRows (map SubByte s)).

(** [ProcessBlock]: one 16-byte block in, one 16-byte block out. *)
Definition ProcessBlock (key block : list byte) : list byte :=
  resize BLOCKSIZE
    (map (fun n => u8 (Z.of_N n))
         (Cipher (map Byte.to_N key) (map Byte.to_N (resize BLOCKSIZE block)))).

End AES.

(** ** [CryptoPP::CTR_Mode<AES>] (NIST SP 800-38A) *)

Module CTR_Mode.

Open Scope Z_scope.

(** The counter block [j] steps after [iv]: the whole block is one
    big-endian integer. *)
Definition counter (iv : list byte) (j : Z) : list byte :=
  be_bytes AES.BLOCKSIZE (be_value (resize AES.BLOCKSIZE iv) + j).

Definition keystream_byte (key iv : list byte) (pos : nat) : byte :=
  nth (pos mod 16) (AES.ProcessBlock key (counter iv (Z.of_nat (pos / 16)))) x00.

(** [Seek(pos)] followed by [ProcessData(out, data, data.size())]. *)
Fixpoint ProcessData (key iv : list byte) (pos : nat) (data : list byte) : list byte :=
  match data with
  | [] => []
  | b :: rest => byte_xor b (keystream_byte key iv pos) :: ProcessData key iv (S pos) rest
  end.

End CTR_Mode.

(** ** [CryptoPP::CCM<AES, 8>] (NIST SP 800-38C, RFC 3610) *)

Module CCM.

Open Scope Z_scope.

Definition REQUIRED_BLOCKSIZE : nat := 16.

(** The tag size, the second template argument of [CCM<AES, 8>]. *)
Definition DIGESTSIZE : nat := 8.

(** The cipher object [d]. *)
Record Cipher : Type := mkCipher {
  m_key : list byte;
  m_iv : list byte;
  m_L : Z;
  m_aadLength : Z;
  m_messageLength : Z
}.

(** [d.SetKeyWithIV(key.data(), key.size(), iv.data(), iv.size())]: the key
    must be an AES key and the nonce 7 to 13 bytes long. *)
Definition SetKeyWithIV (key iv : list byte) : outcome Cipher :=
  if negb (AES.IsValidKeyLength (length key)) then Throw InvalidKeyLength
  else if (size iv <? 7) || (13 <? size iv) then Throw InvalidArgument
  else Ret {| m_key := key; m_iv := iv;
              m_L := Z.of_nat REQUIRED_BLOCKSIZE - 1 - size iv;
              m_aadLength := 0; m_messageLength := 0 |}.

Definition MaxHeaderLength (d : Cipher) : Z := 2 ^ 64 - 1.
Definition MaxMessageLength (d : Cipher) : Z :=
  if m_L d <? 8 then 2 ^ (8 * m_L d) - 1 else 2 ^ 64 - 1.
Definition MaxFooterLength (d : Cipher) : Z := 0.

(** [d.SpecifyDataLengths(headerLength, messageLength, footerLength)]. *)
Definition SpecifyDataLengths (d : Cipher) (headerLength messageLength footerLength : Z)
  : outcome Cipher :=
  if MaxHeaderLength d <? headerLength then Throw InvalidArgument
  else if MaxMessageLength d <? messageLength then Throw InvalidArgument
  else if MaxFooterLength d <? footerLength then Throw InvalidArgument
  else Ret {| m_key := m_key d; m_iv := m_iv d; m_L := m_L d;
              m_aadLength := headerLength; m_messageLength := messageLength |}.

(** The counter block A_0: flags, nonce, and a zero counter. *)
Definition iv_block (d : Cipher) : list byte :=
  u8 (m_L d - 1) :: m_iv d ++ repeat x00 (Z.to_nat (m_L d)).

(** The first block B_0 of the CBC-MAC: flags, nonce, message length. *)
Definition B0 (d : Cipher) : list byte :=
  u8 (64 * (if 0 <? m_aadLength d then 1 else 0)
      + 8 * ((Z.of_nat DIGESTSIZE - 2) / 2) + (m_L d - 1))
    :: m_iv d ++ be_bytes (Z.to_nat (m_L d)) (m_messageLength d).

(** How the length of the header is written in front of it. *)
Definition header_length_prefix (a : Z) : list byte :=
  if a <? 65280 then be_bytes 2 a
  else if a <? 2 ^ 32 then [xff; xfe] ++ be_bytes 4 a
  else [xff; xff] ++ be_bytes 8 a.

(** Cut into 16-byte blocks, the last one filled with zeros. *)
Fixpoint blocks_aux (fuel : nat) (data : list byte) : list (list byte) :=
  match fuel, data with
  | O, _ => []
  | _, [] => []
  | S fuel', _ =>
      resize REQUIRED_BLOCKSIZE (firstn REQUIRED_BLOCKSIZE data)
        :: blocks_aux fuel' (skipn REQUIRED_BLOCKSIZE data)
  end.

Definition blocks (data : list byte) : list (list byte) :=
  blocks_aux (length data) data.

Definition xor_block (a b : list byte) : list byte :=
  xor_bytes (resize REQUIRED_BLOCKSIZE a) (resize REQUIRED_BLOCKSIZE b).

Definition cbc_step (key x b : list byte) : list byte :=
  AES.ProcessBlock key (xor_block x b).

(** The CBC-MAC over B_0, the header and the message. *)
Definition CBC_MAC (d : Cipher) (header message : list byte) : list byte :=
  let x := AES.ProcessBlock (m_key d) (B0 d) in
  let x := if 0 <? m_aadLength d
           then fold_left (cbc_step (m_key d))
                  (blocks (header_length_prefix (m_aadLength d) ++ header)) x
           else x in
  fold_left (cbc_step (m_key d)) (blocks message) x.

(** The tag: the first [DIGESTSIZE] bytes of the CBC-MAC, encrypted with
    the key stream block of counter 0. *)
Definition mac (d : Cipher) (header message : list byte) : list byte :=
  CTR_Mode.ProcessData (m_key d) (iv_block d) 0
    (resize DIGESTSIZE (CBC_MAC d header message)).

(** The message is encrypted (and decrypted) with the key stream from
    counter 1 on. *)
Definition transform (d : Cipher) (data : list byte) : list byte :=
  CTR_Mode.ProcessData (m_key d) (iv_block d) REQUIRED_BLOCKSIZE data.

(** *** The authenticated filters *)

Inductive Channel : Type := DEFAULT_CHANNEL | AAD_CHANNEL.

(** A filter [df] around the cipher: what was put on each channel, and
    what can be retrieved. *)
Record Filter : Type := mkFilter {
  f_cipher : Cipher;
  f_header : list byte;
  f_input : list byte;
  f_output : list byte
}.

(** [AuthenticatedEncryptionFilter df(d)]. *)
Definition AuthenticatedEncryptionFilter (d : Cipher) : Filter :=
  {| f_cipher := d; f_header := []; f_input := []; f_output := [] |}.

(** [AuthenticatedDecryptionFilter df(d, nullptr, MAC_AT_END | THROW_EXCEPTION)]. *)
Definition AuthenticatedDecryptionFilter (d : Cipher) : Filter :=
  {| f_cipher := d; f_header := []; f_input := []; f_output := [] |}.

Definition put (df : Filter) (channel : Channel) (data : list byte) : Filter :=
  match channel with
  | AAD_CHANNEL =>
      {| f_cipher := f_cipher df; f_header := f_header df ++ data;
         f_input := f_input df; f_output := f_output df |}
  | DEFAULT_CHANNEL =>
      {| f_cipher := f_cipher df; f_header := f_header df;
         f_input := f_input df ++ data; f_output := f_output df |}
  end.

(** [df.ChannelPut(channel, buf.data() + off, len)]. *)
Definition ChannelPut (df : Filter) (channel : Channel) (buf : list byte) (off len : Z)
  : outcome Filter :=
  data <- buffer_read buf off len ;;
  Ret (put df channel data).

(** The amounts put must be the amounts announced. *)
Definition lengths_match (d : Cipher) (header message : list byte) : bool :=
  (size header =? m_aadLength d) && (size message =? m_messageLength d).

(** [df.ChannelMessageEnd(channel)] on the encryption filter: the end of
    the default channel appends the tag to the cipher text. *)
Definition Encryption_ChannelMessageEnd (df : Filter) (channel : Channel) : outcome Filter :=
  match channel with
  | AAD_CHANNEL => Ret df
  | DEFAULT_CHANNEL =>
      let d := f_cipher df in
      if negb (lengths_match d (f_header df) (f_input df)) then Throw InvalidArgument
      else Ret {| f_cipher := d; f_header := f_header df; f_input := f_input df;
                  f_output := transform d (f_input df) ++ mac d (f_header df) (f_input df) |}
  end.

(** Whether the tag [tag] is the one of the message that [ciphertext]
    decrypts to. *)
Definition verifies (d : Cipher) (header ciphertext tag : list byte) : bool :=
  bytes_eqb tag (mac d header (transform d ciphertext)).

(** [df.ChannelMessageEnd(channel)] on the decryption filter: with
    [MAC_AT_END] the last [DIGESTSIZE] bytes of the input are the tag; with
    [THROW_EXCEPTION] a tag that does not verify raises. *)
Definition Decryption_ChannelMessageEnd (df : Filter) (channel : Channel) : outcome Filter :=
  match channel with
  | AAD_CHANNEL => Ret df
  | DEFAULT_CHANNEL =>
      let d := f_cipher df in
      let n := length (f_input df) in
      if (n <? DIGESTSIZE)%nat then Throw HashVerificationFailed
      else
        let ciphertext := firstn (n - DIGESTSIZE) (f_input df) in
        let tag := skipn (n - DIGESTSIZE) (f_input df) in
        if negb (lengths_match d (f_header df) ciphertext) then Throw InvalidArgument
        else if negb (verifies d (f_header df) ciphertext tag)
             then Throw HashVerificationFailed
             else Ret {| f_cipher := d; f_header := f_header df; f_input := f_input df;
                         f_output := transform d ciphertext |}
  end.

Definition MaxRetrievable (df : Filter) : Z := size (f_output df).

(** [df.Get(out.data(), n)] into a zero-filled [out] of [n] bytes. *)
Definition Get (df : Filter) (n : Z) : list byte :=
  resize (Z.to_nat n) (firstn (Z.to_nat n) (f_output df)).

End CCM.


(* ================================================================== *)
(** * The structures of the UDS headers *)
(* ================================================================== *)

(** [MacAddress] is [std::array<u8, 6>]. *)
Record MacAddress : Type := mkMacAddress {
  mac0 : byte; mac1 : byte; mac2 : byte; mac3 : byte; mac4 : byte; mac5 : byte
}.

Definition mac_bytes (m : MacAddress) : list byte :=
  [mac0 m; mac1 m; mac2 m; mac3 m; mac4 m; mac5 m].

(** The object representation of a structure: how many bytes [sizeof]
    counts, and what they are. *)
Class Layout (T : Type) : Type := {
  sizeof : nat;
  object_bytes : T -> list byte
}.

Arguments sizeof T {Layout}.

(** [std::vector<u8> buffer(sizeof(x)); memcpy(buffer.data(), &x, sizeof(x));] *)
Definition memcpy_object {T : Type} {L : Layout T} (x : T) : list byte :=
  resize (sizeof T) (object_bytes x).

(** [LLCHeader] is declared in [uds_data.h]; the source sets its [protocol]
    and leaves every other member at its default. *)
Module LLCHeader.
Record t : Type := mk { protocol : Z }.
End LLCHeader.

(** [SecureDataHeader] is declared in [uds_data.h]; these are the members
    the source assigns. *)
Module SecureDataHeader.
Record t : Type := mk {
  protocol_size : Z;
  securedata_size : Z;
  is_management : Z;
  data_channel : Z;
  sequence_number : Z;
  dest_node_id : Z;
  src_node_id : Z
}.
End SecureDataHeader.

(** [DataFrameCryptoCTR] is declared in [uds_data.h]. *)
Module DataFrameCryptoCTR.
Record t : Type := mk {
  host_mac : MacAddress;
  wlan_comm_id : Z;
  id : Z;
  network_id : Z
}.
End DataFrameCryptoCTR.

(** [NetworkInfo] is declared in [nwm_uds.h]; these are the members the
    source reads. *)
Module NetworkInfo.
Record t : Type := mk {
  host_mac_address : MacAddress;
  wlan_comm_id : Z;
  id : Z;
  network_id : Z
}.
End NetworkInfo.

(** The anonymous structure of [GenerateCCMPAAD].  [u16_be] members hold
    their value most significant byte first; every member sits at an even
    offset, so there is no padding. *)
Module aad_struct.
Record t : Type := mk {
  FC : Z;
  receiver : MacAddress;
  transmitter : MacAddress;
  destination : MacAddress;
  SC : Z
}.
End aad_struct.

#[export] Instance aad_struct_layout : Layout aad_struct.t := {|
  sizeof := 22;
  object_bytes a :=
    be_bytes 2 (aad_struct.FC a)
      ++ mac_bytes (aad_struct.receiver a)
      ++ mac_bytes (aad_struct.transmitter a)
      ++ mac_bytes (aad_struct.destination a)
      ++ be_bytes 2 (aad_struct.SC a)
|}.

(** Modelled from the spec: the declaration of [LLCHeader] is in
    [uds_data.h]; the specification gives the link-encapsulation header as
    one 2-byte big-endian protocol identifier and nothing else. *)
Definition LLCHeader_spec_layout : Layout LLCHeader.t := {|
  sizeof := 2;
  object_bytes h := be_bytes 2 (LLCHeader.protocol h)
|}.

(** Modelled from the spec: the declaration of [SecureDataHeader] is in
    [uds_data.h]; the specification lists its fields as two 16-bit sizes,
    two 8-bit fields and three 16-bit fields, little-endian. *)
Definition SecureDataHeader_spec_layout : Layout SecureDataHeader.t := {|
  sizeof := 12;
  object_bytes h :=
    le_bytes 2 (SecureDataHeader.protocol_size h)
      ++ le_bytes 2 (SecureDataHeader.securedata_size h)
      ++ [u8 (SecureDataHeader.is_management h)]
      ++ [u8 (SecureDataHeader.data_channel h)]
      ++ le_bytes 2 (SecureDataHeader.sequence_number h)
      ++ le_bytes 2 (SecureDataHeader.dest_node_id h)
      ++ le_bytes 2 (SecureDataHeader.src_node_id h)
|}.

(* ================================================================== *)
(** * [namespace Service::NWM]: uds_data.cpp *)
(* ================================================================== *)

Module NWM.

Open Scope Z_scope.

(** AES Keyslot used to generate the UDS data frame CCMP key. *)
Definition UDSDataCryptoAESKeySlot : Z := 0x2D.

(** [int size = ...]: conversion to a 32-bit signed integer. *)
Definition to_int (z : Z) : Z := (z + 2 ^ 31) mod 2 ^ 32 - 2 ^ 31.

Section Headers.

Context {LLCHeader_layout : Layout LLCHeader.t}.
Context {SecureDataHeader_layout : Layout SecureDataHeader.t}.

(** Generates a SNAP-enabled 802.2 LLC header for the specified protocol. *)
Definition GenerateLLCHeader (protocol : Z) : list byte :=
  let header := {| LLCHeader.protocol := u16 protocol |} in
  memcpy_object header.

(** The local [header] of [GenerateSecureDataHeader] once its members are
    assigned.  The two sums are computed in [size_t] and stored in 16-bit
    members. *)
Definition GenerateSecureDataHeader_header
    (data_size channel dest_node_id src_node_id sequence_number : Z)
  : SecureDataHeader.t :=
  {| SecureDataHeader.protocol_size :=
       u16 (size_add data_size (Z.of_nat (sizeof SecureDataHeader.t)));
     SecureDataHeader.securedata_size :=
       u16 (size_sub (size_add data_size (Z.of_nat (sizeof SecureDataHeader.t))) 4);
     SecureDataHeader.is_management := 0;
     SecureDataHeader.data_channel := channel;
     SecureDataHeader.sequence_number := sequence_number;
     SecureDataHeader.dest_node_id := dest_node_id;
     SecureDataHeader.src_node_id := src_node_id |}.

(** Generates a Nintendo UDS SecureData header with the specified parameters. *)
Definition GenerateSecureDataHeader
    (data_size channel dest_node_id src_node_id sequence_number : Z) : list byte :=
  let header :=
    GenerateSecureDataHeader_header data_size channel dest_node_id src_node_id sequence_number in
  memcpy_object header.

(** [GenerateDataPayload]; [SecureData] is the enumerator
    [EtherType::SecureData], and the [size_t] length of [data] is converted
    to the [u16] parameter of [GenerateSecureDataHeader]. *)
Definition GenerateDataPayload (SecureData : Z)
    (data : list byte) (channel dest_node src_node sequence_number : Z) : list byte :=
  let buffer := GenerateLLCHeader SecureData in
  let securedata_header :=
    GenerateSecureDataHeader (u16 (size data)) channel dest_node src_node sequence_number in
  let buffer := buffer ++ securedata_header in
  let buffer := buffer ++ data in
  buffer.

End Headers.

Section KeyDerivation.

Context {DataFrameCryptoCTR_layout : Layout DataFrameCryptoCTR.t}.

(** [HW::AES::GetNormalKey]: the key store, from key slot to 16-byte key. *)
Variable GetNormalKey : Z -> list byte.

(** The local [data] of [GetDataCryptoCTR] once its members are assigned. *)
Definition GetDataCryptoCTR_data (network_info : NetworkInfo.t) : DataFrameCryptoCTR.t :=
  {| DataFrameCryptoCTR.host_mac := NetworkInfo.host_mac_address network_info;
     DataFrameCryptoCTR.wlan_comm_id := NetworkInfo.wlan_comm_id network_info;
     DataFrameCryptoCTR.id := NetworkInfo.id network_info;
     DataFrameCryptoCTR.network_id := NetworkInfo.network_id network_info |}.

(** The bytes [reinterpret_cast<u8*>(&data)] .. [+ sizeof(data)]. *)
Definition GetDataCryptoCTR_input (network_info : NetworkInfo.t) : list byte :=
  memcpy_object (GetDataCryptoCTR_data network_info).

(** Calculates the CTR used for the AES-CTR process that calculates the CCMP
    crypto key for data frames. *)
Definition GetDataCryptoCTR (network_info : NetworkInfo.t) : list byte :=
  MD5.CalculateDigest (GetDataCryptoCTR_input network_info).

(** Generates the key used for encrypting the 802.11 data frames generated
    by UDS. *)
Definition GenerateDataCCMPKey (passphrase : list byte) (network_info : NetworkInfo.t)
  : list byte :=
  let passphrase_hash := MD5.CalculateDigest passphrase in
  let counter := GetDataCryptoCTR network_info in
  let key := GetNormalKey UDSDataCryptoAESKeySlot in
  CTR_Mode.ProcessData (resize AES.BLOCKSIZE key) counter 0 passphrase_hash.

End KeyDerivation.

(** Default FC value of DataFrame | Protected | ToDS. *)
Definition DefaultFrameControl : Z := 0x0841.

(** Generates the Additional Authenticated Data (AAD) for an UDS 802.11
    encrypted data frame. *)
Definition GenerateCCMPAAD (sender receiver : MacAddress) : list byte :=
  let aad_struct :=
    {| aad_struct.FC := DefaultFrameControl;
       aad_struct.SC := 0;
       aad_struct.transmitter := sender;
       aad_struct.receiver := receiver;
       aad_struct.destination := receiver |} in
  memcpy_object aad_struct.

(** The [packet_number] and [nonce] vectors built by [DecryptDataFrame]. *)
Definition DecryptDataFrame_nonce (sender : MacAddress) (sequence_number : Z) : list byte :=
  let packet_number :=
    [x00; x00; x00; x00;
     u8 (Z.land (Z.shiftr sequence_number 8) 0xFF);
     u8 (Z.land sequence_number 0xFF)] in
  let nonce := [] in
  let nonce := nonce ++ [x00] in
  let nonce := nonce ++ mac_bytes sender in
  let nonce := nonce ++ packet_number in
  nonce.

(** The [packet_number] and [nonce] vectors built by [EncryptDataFrame]. *)
Definition EncryptDataFrame_nonce (sender : MacAddress) (sequence_number : Z) : list byte :=
  let packet_number :=
    [x00; x00; x00; x00;
     u8 (Z.land (Z.shiftr sequence_number 8) 0xFF);
     u8 (Z.land sequence_number 0xFF)] in
  let nonce := [] in
  let nonce := nonce ++ [x00] in
  let nonce := nonce ++ mac_bytes sender in
  let nonce := nonce ++ packet_number in
  nonce.

(** The message length [DecryptDataFrame] announces and reads:
    [encrypted_payload.size() - 8], in [size_t]. *)
Definition DecryptDataFrame_message_length (encrypted_payload : list byte) : Z :=
  size_sub (size encrypted_payload) 8.

(** The body of the [try] block of [DecryptDataFrame]. *)
Definition DecryptDataFrame_try (encrypted_payload ccmp_key : list byte)
    (sender receiver : MacAddress) (sequence_number : Z) : outcome (list byte) :=
  let aad := GenerateCCMPAAD sender receiver in
  let nonce := DecryptDataFrame_nonce sender sequence_number in
  d <- CCM.SetKeyWithIV ccmp_key nonce ;;
  d <- CCM.SpecifyDataLengths d (size aad)
         (DecryptDataFrame_message_length encrypted_payload) 0 ;;
  let df := CCM.AuthenticatedDecryptionFilter d in
  df <- CCM.ChannelPut df CCM.AAD_CHANNEL aad 0 (size aad) ;;
  df <- CCM.ChannelPut df CCM.DEFAULT_CHANNEL encrypted_payload 0
          (DecryptDataFrame_message_length encrypted_payload) ;;
  df <- CCM.ChannelPut df CCM.DEFAULT_CHANNEL encrypted_payload
          (size encrypted_payload - 8) 8 ;;
  df <- CCM.Decryption_ChannelMessageEnd df CCM.AAD_CHANNEL ;;
  df <- CCM.Decryption_ChannelMessageEnd df CCM.DEFAULT_CHANNEL ;;
  let size := to_int (CCM.MaxRetrievable df) in
  Ret (CCM.Get df size).

(** Decrypts the payload of an encrypted 802.11 data frame using the
    specified key.  The handler logs and falls through to [return {}]. *)
Definition DecryptDataFrame (encrypted_payload ccmp_key : list byte)
    (sender receiver : MacAddress) (sequence_number : Z) : outcome (list byte) :=
  try_catch
    (DecryptDataFrame_try encrypted_payload ccmp_key sender receiver sequence_number)
    (fun _ => Ret []).

(** The body of the [try] block of [EncryptDataFrame]. *)
Definition EncryptDataFrame_try (payload ccmp_key : list byte)
    (sender receiver : MacAddress) (sequence_number : Z) : outcome (list byte) :=
  let aad := GenerateCCMPAAD sender receiver in
  let nonce := EncryptDataFrame_nonce sender sequence_number in
  d <- CCM.SetKeyWithIV ccmp_key nonce ;;
  d <- CCM.SpecifyDataLengths d (size aad) (size payload) 0 ;;
  let df := CCM.AuthenticatedEncryptionFilter d in
  df <- CCM.ChannelPut df CCM.AAD_CHANNEL aad 0 (size aad) ;;
  df <- CCM.Encryption_ChannelMessageEnd df CCM.AAD_CHANNEL ;;
  df <- CCM.ChannelPut df CCM.DEFAULT_CHANNEL payload 0 (size payload) ;;
  df <- CCM.Encryption_ChannelMessageEnd df CCM.DEFAULT_CHANNEL ;;
  let size := to_int (CCM.MaxRetrievable df) in
  Ret (CCM.Get df size).

(** Encrypts the payload of an 802.11 data frame using the specified key.
    The handler logs and falls through to [return {}]. *)
Definition EncryptDataFrame (payload ccmp_key : list byte)
    (sender receiver : MacAddress) (sequence_number : Z) : outcome (list byte) :=
  try_catch
    (EncryptDataFrame_try payload ccmp_key sender receiver sequence_number)
    (fun _ => Ret []).

End NWM.


(* ================================================================== *)
(** * Vocabulary of the statements *)
(* ================================================================== *)

(** The cipher object both [EncryptDataFrame] and [DecryptDataFrame] work
    with, once [SetKeyWithIV] and [SpecifyDataLengths] have accepted their
    arguments: 13-byte nonce, so a 2-byte length field; 22 bytes of AAD. *)
Definition frame_cipher (ccmp_key : list byte) (sender : MacAddress)
    (sequence_number message_length : Z) : CCM.Cipher :=
  {| CCM.m_key := ccmp_key;
     CCM.m_iv := NWM.DecryptDataFrame_nonce sender sequence_number;
     CCM.m_L := 2;
     CCM.m_aadLength := 22;
     CCM.m_messageLength := message_length |}.

(** The last eight bytes of the frame are the tag of what the bytes before
    them decrypt to, under the AAD and nonce rebuilt from the addresses and
    the sequence number. *)
Definition tag_verifies (encrypted_payload ccmp_key : list byte)
    (sender receiver : MacAddress) (sequence_number : Z) : bool :=
  let n := length encrypted_payload in
  (8 <=? n)%nat
  && CCM.verifies (frame_cipher ccmp_key sender sequence_number (Z.of_nat (n - 8)))
       (NWM.GenerateCCMPAAD sender receiver)
       (firstn (n - 8) encrypted_payload) (skipn (n - 8) encrypted_payload).

(** Values for the examples. *)
Definition example_key : list byte :=
  [xc0; xc1; xc2; xc3; xc4; xc5; xc6; xc7; xc8; xc9; xca; xcb; xcc; xcd; xce; xcf].

Definition example_sender : MacAddress := mkMacAddress x00 x11 x22 x33 x44 x55.

Definition example_receiver : MacAddress := mkMacAddress xaa xbb xcc xdd xee xff.

Definition example_payload : list byte := [x68; x65; x6c; x6c; x6f].

Definition example_network : NetworkInfo.t :=
  NetworkInfo.mk example_sender 0x0123456789ABCDEF 1 0xAABBCCDD.

(** A layout of [DataFrameCryptoCTR] for the examples only: the members one
    after the other in the order the source assigns them.  The declaration
    is in [uds_data.h]; what is proved about the key derivation holds for
    every layout. *)
Definition example_DataFrameCryptoCTR_layout : Layout DataFrameCryptoCTR.t := {|
  sizeof := 19;
  object_bytes d :=
    mac_bytes (DataFrameCryptoCTR.host_mac d)
      ++ be_bytes 8 (DataFrameCryptoCTR.wlan_comm_id d)
      ++ [u8 (DataFrameCryptoCTR.id d)]
      ++ be_bytes 4 (DataFrameCryptoCTR.network_id d)
|}.

(* ================================================================== *)
(** * The primitives against their published test vectors *)
(* ================================================================== *)

(** FIPS-197, appendix C.1: AES-128. *)
Example AES_128_vector :
  AES.ProcessBlock
    [x00; x01; x02; x03; x04; x05; x06; x07; x08; x09; x0a; x0b; x0c; x0d; x0e; x0f]
    [x00; x11; x22; x33; x44; x55; x66; x77; x88; x99; xaa; xbb; xcc; xdd; xee; xff]
  = [x69; xc4; xe0; xd8; x6a; x7b; x04; x30; xd8; xcd; xb7; x80; x70; xb4; xc5; x5a].
Proof. vm_compute. reflexivity. Qed.

(** FIPS-197, appendix C.3: AES-256. *)
Example AES_256_vector :
  AES.ProcessBlock
    [x00; x01; x02; x03; x04; x05; x06; x07; x08; x09; x0a; x0b; x0c; x0d; x0e; x0f;
     x10; x11; x12; x13; x14; x15; x16; x17; x18; x19; x1a; x1b; x1c; x1d; x1e; x1f]
    [x00; x11; x22; x33; x44; x55; x66; x77; x88; x99; xaa; xbb; xcc; xdd; xee; xff]
  = [x8e; xa2; xb7; xca; x51; x67; x45; xbf; xea; xfc; x49; x90; x4b; x49; x60; x89].
Proof. vm_compute. reflexivity. Qed.

(** RFC 1321, appendix A.5: the digests of the empty string and of "abc". *)
Example MD5_vectors :
  MD5.CalculateDigest []
  = [xd4; x1d; x8c; xd9; x8f; x00; xb2; x04; xe9; x80; x09; x98; xec; xf8; x42; x7e]
  /\ MD5.CalculateDigest [x61; x62; x63]
  = [x90; x01; x50; x98; x3c; xd2; x4f; xb0; xd6; x96; x3f; x7d; x28; xe1; x7f; x72].
Proof. split; vm_compute; reflexivity. Qed.

(** RFC 3610, packet vector #1: 13-byte nonce, 8 bytes of header, 23 bytes
    of message, 8-byte tag. *)
Example CCM_vector :
  let key := example_key in
  let nonce := [x00; x00; x00; x03; x02; x01; x00; xa0; xa1; xa2; xa3; xa4; xa5] in
  let header := [x00; x01; x02; x03; x04; x05; x06; x07] in
  let message :=
    [x08; x09; x0a; x0b; x0c; x0d; x0e; x0f; x10; x11; x12; x13; x14; x15; x16; x17;
     x18; x19; x1a; x1b; x1c; x1d; x1e] in
  (d <- CCM.SetKeyWithIV key nonce ;;
   d <- CCM.SpecifyDataLengths d 8 23 0 ;;
   let df := CCM.AuthenticatedEncryptionFilter d in
   df <- CCM.ChannelPut df CCM.AAD_CHANNEL header 0 8 ;;
   df <- CCM.ChannelPut df CCM.DEFAULT_CHANNEL message 0 23 ;;
   df <- CCM.Encryption_ChannelMessageEnd df CCM.DEFAULT_CHANNEL ;;
   Ret (CCM.Get df (CCM.MaxRetrievable df)))
  = Ret [x58; x8c; x97; x9a; x61; xc6; x63; xd2; xf0; x66; xd0; xc2; xc0; xf9; x89; x80;
         x6d; x5f; x6b; x61; xda; xc3; x84;
         x17; xe8; xd1; x2c; xfd; xf9; x26; xe0].
Proof. vm_compute. reflexivity. Qed.

(* ================================================================== *)
(** * The functions on an example frame *)
(* ================================================================== *)

Example GenerateCCMPAAD_example :
  NWM.GenerateCCMPAAD example_sender example_receiver
  = [x08; x41; xaa; xbb; xcc; xdd; xee; xff; x00; x11; x22; x33; x44; x55;
     xaa; xbb; xcc; xdd; xee; xff; x00; x00].
Proof. vm_compute. reflexivity. Qed.

Example EncryptDataFrame_example :
  NWM.EncryptDataFrame example_payload example_key example_sender example_receiver 0x1234
  = Ret [xbb; x39; x10; xeb; x98; x21; xda; xe0; x5d; xd5; x16; x80; x52].
Proof. vm_compute. reflexivity. Qed.

Example DecryptDataFrame_example :
  NWM.DecryptDataFrame [xbb; x39; x10; xeb; x98; x21; xda; xe0; x5d; xd5; x16; x80; x52]
    example_key example_sender example_receiver 0x1234
  = Ret example_payload.
Proof. vm_compute. reflexivity. Qed.

(** The same frame with bit 3 of its third byte flipped, and with another
    receiver. *)
Example DecryptDataFrame_tampered_example :
  NWM.DecryptDataFrame
    (flip_bit 2 3 [xbb; x39; x10; xeb; x98; x21; xda; xe0; x5d; xd5; x16; x80; x52])
    example_key example_sender example_receiver 0x1234 = Ret []
  /\ NWM.DecryptDataFrame
       [xbb; x39; x10; xeb; x98; x21; xda; xe0; x5d; xd5; x16; x80; x52]
       example_key example_sender example_sender 0x1234 = Ret [].
Proof. split; vm_compute; reflexivity. Qed.

(** Key derivation for the passphrase "test", with the example layout and a
    key store that holds [example_key]. *)
Example GenerateDataCCMPKey_example :
  NWM.GenerateDataCCMPKey (DataFrameCryptoCTR_layout := example_DataFrameCryptoCTR_layout)
    (fun _ => example_key) [x74; x65; x73; x74] example_network
  = [xe2; xae; x65; xcb; x1a; xbe; x97; x6e; xb5; xd6; x9a; x70; x08; x37; x60; x54].
Proof. vm_compute. reflexivity. Qed.

(* ================================================================== *)
(** * Bytes: lemmas *)
(* ================================================================== *)

Section ByteLemmas.

Open Scope Z_scope.

Lemma byte_xor_involutive (a b : byte) : byte_xor (byte_xor a b) b = a.
Proof.
  unfold byte_xor.
  destruct (Byte.to_bits a) as (a0 & a1 & a2 & a3 & a4 & a5 & a6 & a7) eqn:Ha.
  destruct (Byte.to_bits b) as (b0 & b1 & b2 & b3 & b4 & b5 & b6 & b7) eqn:Hb.
  rewrite Byte.to_bits_of_bits.
  rewrite !xorb_assoc, !xorb_nilpotent, !xorb_false_r.
  rewrite <- Ha. apply Byte.of_bits_to_bits.
Qed.

Lemma byte_xor_comm (a b : byte) : byte_xor a b = byte_xor b a.
Proof.
  unfold byte_xor.
  destruct (Byte.to_bits a) as (a0 & a1 & a2 & a3 & a4 & a5 & a6 & a7).
  destruct (Byte.to_bits b) as (b0 & b1 & b2 & b3 & b4 & b5 & b6 & b7).
  f_equal. repeat (f_equal; try apply xorb_comm).
Qed.

Lemma byte_xor_assoc (a b c : byte) :
  byte_xor (byte_xor a b) c = byte_xor a (byte_xor b c).
Proof.
  unfold byte_xor.
  destruct (Byte.to_bits a) as (a0 & a1 & a2 & a3 & a4 & a5 & a6 & a7).
  destruct (Byte.to_bits b) as (b0 & b1 & b2 & b3 & b4 & b5 & b6 & b7).
  destruct (Byte.to_bits c) as (c0 & c1 & c2 & c3 & c4 & c5 & c6 & c7).
  rewrite !Byte.to_bits_of_bits.
  f_equal. repeat (f_equal; try apply xorb_assoc).
Qed.

Lemma xorb_fixed (a m : bool) : xorb a m = a -> m = false.
Proof. destruct a, m; simpl; congruence. Qed.

(** Xor with a non-zero mask changes the byte. *)
Lemma byte_xor_changes (a m : byte) : m <> x00 -> byte_xor a m <> a.
Proof.
  intros Hm H. apply Hm. clear Hm.
  apply (f_equal Byte.to_bits) in H. unfold byte_xor in H.
  destruct (Byte.to_bits a) as (a0 & a1 & a2 & a3 & a4 & a5 & a6 & a7).
  destruct (Byte.to_bits m) as (m0 & m1 & m2 & m3 & m4 & m5 & m6 & m7) eqn:Em.
  rewrite Byte.to_bits_of_bits in H.
  injection H as H0 H1 H2 H3 H4 H5 H6 H7.
  apply xorb_fixed in H0, H1, H2, H3, H4, H5, H6, H7. subst.
  rewrite <- (Byte.of_bits_to_bits m), Em. reflexivity.
Qed.

Lemma bit_mask_nonzero (i : nat) : (i < 8)%nat -> bit_mask i <> x00.
Proof.
  intros Hi.
  do 8 (destruct i as [|i]; [vm_compute; discriminate|]).
  lia.
Qed.

Lemma bytes_eqb_eq (a b : list byte) : bytes_eqb a b = true <-> a = b.
Proof.
  revert b. induction a as [|x a IH]; intros [|y b]; simpl; split; intros H;
    try reflexivity; try discriminate.
  - apply andb_true_iff in H as [Hx Hr].
    apply Byte.byte_dec_bl in Hx. apply IH in Hr. congruence.
  - injection H as -> ->. apply andb_true_iff. split.
    + apply Byte.byte_dec_lb. reflexivity.
    + apply IH. reflexivity.
Qed.

Lemma bytes_eqb_refl (a : list byte) : bytes_eqb a a = true.
Proof. apply bytes_eqb_eq. reflexivity. Qed.

Lemma bytes_eqb_neq (a b : list byte) : a <> b -> bytes_eqb a b = false.
Proof.
  intros H. destruct (bytes_eqb a b) eqn:E; [|reflexivity].
  apply bytes_eqb_eq in E. contradiction.
Qed.

Lemma resize_length (n : nat) (l : list byte) : length (resize n l) = n.
Proof.
  unfold resize. rewrite length_firstn, length_app, repeat_length. lia.
Qed.

Lemma resize_exact (l : list byte) : resize (length l) l = l.
Proof.
  unfold resize. rewrite firstn_app, Nat.sub_diag, firstn_all. simpl.
  apply app_nil_r.
Qed.

Lemma resize_resize (n : nat) (l : list byte) : resize n (resize n l) = resize n l.
Proof.
  rewrite <- (resize_length n l) at 1. apply resize_exact.
Qed.

Lemma size_app (a b : list byte) : size (a ++ b) = size a + size b.
Proof. unfold size. rewrite length_app. lia. Qed.

Lemma size_nonneg (a : list byte) : 0 <= size a.
Proof. unfold size. lia. Qed.

Lemma to_int_small (z : Z) : 0 <= z < 2 ^ 31 -> NWM.to_int z = z.
Proof.
  intros H. unfold NWM.to_int. rewrite Z.mod_small; lia.
Qed.

End ByteLemmas.

(* ================================================================== *)
(** * Buffers, counter mode and CCM: lemmas *)
(* ================================================================== *)

Section CryptoLemmas.

Open Scope Z_scope.

Lemma bind_Ret {A B : Type} (a : A) (k : A -> outcome B) : bind (Ret a) k = k a.
Proof. reflexivity. Qed.

Lemma buffer_read_firstn (buf : list byte) (n : nat) :
  (n <= length buf)%nat -> buffer_read buf 0 (Z.of_nat n) = Ret (firstn n buf).
Proof.
  intros H. unfold buffer_read, size.
  replace ((0 <=? 0) && (0 <=? Z.of_nat n) && (0 + Z.of_nat n <=? Z.of_nat (length buf)))%bool
    with true.
  - rewrite Nat2Z.id. reflexivity.
  - symmetry. rewrite !andb_true_iff, !Z.leb_le. lia.
Qed.

Lemma buffer_read_all (buf : list byte) : buffer_read buf 0 (size buf) = Ret buf.
Proof.
  unfold size. rewrite buffer_read_firstn by lia. rewrite firstn_all. reflexivity.
Qed.

Lemma buffer_read_skipn (buf : list byte) (n : nat) :
  (n <= length buf)%nat ->
  buffer_read buf (Z.of_nat n) (size buf - Z.of_nat n) = Ret (skipn n buf).
Proof.
  intros H. unfold buffer_read, size.
  replace ((0 <=? Z.of_nat n) && (0 <=? Z.of_nat (length buf) - Z.of_nat n)
           && (Z.of_nat n + (Z.of_nat (length buf) - Z.of_nat n)
               <=? Z.of_nat (length buf)))%bool with true.
  - rewrite Nat2Z.id. rewrite firstn_all2; [reflexivity|].
    rewrite length_skipn. lia.
  - symmetry. rewrite !andb_true_iff, !Z.leb_le. lia.
Qed.

Lemma ProcessData_length (key iv : list byte) (data : list byte) :
  forall pos, length (CTR_Mode.ProcessData key iv pos data) = length data.
Proof.
  induction data as [|b rest IH]; intros pos; simpl; [reflexivity|].
  rewrite IH. reflexivity.
Qed.

(** Encrypting twice at the same position of the key stream gives the data
    back. *)
Lemma ProcessData_involutive (key iv : list byte) (data : list byte) :
  forall pos,
    CTR_Mode.ProcessData key iv pos (CTR_Mode.ProcessData key iv pos data) = data.
Proof.
  induction data as [|b rest IH]; intros pos; simpl; [reflexivity|].
  rewrite byte_xor_involutive, IH. reflexivity.
Qed.

(** Flipping bits of the input flips the same bits of the output. *)
Lemma ProcessData_update_nth (key iv : list byte) (m : byte) (data : list byte) :
  forall pos i,
    CTR_Mode.ProcessData key iv pos (update_nth i (fun x => byte_xor x m) data)
    = update_nth i (fun x => byte_xor x m) (CTR_Mode.ProcessData key iv pos data).
Proof.
  induction data as [|b rest IH]; intros pos [|i]; simpl; try reflexivity.
  - f_equal. rewrite !byte_xor_assoc. f_equal. apply byte_xor_comm.
  - rewrite IH. reflexivity.
Qed.

Lemma transform_length (d : CCM.Cipher) (data : list byte) :
  length (CCM.transform d data) = length data.
Proof. apply ProcessData_length. Qed.

Lemma transform_involutive (d : CCM.Cipher) (data : list byte) :
  CCM.transform d (CCM.transform d data) = data.
Proof. apply ProcessData_involutive. Qed.

Lemma mac_length (d : CCM.Cipher) (header message : list byte) :
  length (CCM.mac d header message) = 8%nat.
Proof.
  unfold CCM.mac. rewrite ProcessData_length. apply resize_length.
Qed.

Lemma update_nth_length (f : byte -> byte) (l : list byte) :
  forall i, length (update_nth i f l) = length l.
Proof.
  induction l as [|x r IH]; intros [|i]; simpl; try reflexivity.
  rewrite IH. reflexivity.
Qed.

Lemma update_nth_app_l (f : byte -> byte) (a b : list byte) :
  forall i, (i < length a)%nat -> update_nth i f (a ++ b) = update_nth i f a ++ b.
Proof.
  induction a as [|x a IH]; intros [|i] Hi; simpl in *; try lia; [reflexivity|].
  rewrite IH by lia. reflexivity.
Qed.

Lemma update_nth_app_r (f : byte -> byte) (a b : list byte) :
  forall i, (length a <= i)%nat ->
            update_nth i f (a ++ b) = a ++ update_nth (i - length a) f b.
Proof.
  induction a as [|x a IH]; intros [|i] Hi; simpl in *; try lia; try reflexivity.
  rewrite IH by lia. reflexivity.
Qed.

Lemma update_nth_changes (f : byte -> byte) (l : list byte) :
  (forall x, f x <> x) ->
  forall i, (i < length l)%nat -> update_nth i f l <> l.
Proof.
  intros Hf. induction l as [|x r IH]; intros [|i] Hi; simpl in *; try lia;
    intros H; injection H as H.
  - exact (Hf x H).
  - apply (IH i); [lia|exact H].
Qed.

Lemma flip_bit_length (i bit : nat) (l : list byte) :
  length (flip_bit i bit l) = length l.
Proof. apply update_nth_length. Qed.

Lemma flip_bit_changes (i bit : nat) (l : list byte) :
  (i < length l)%nat -> (bit < 8)%nat -> flip_bit i bit l <> l.
Proof.
  intros Hi Hb. apply update_nth_changes; [|exact Hi].
  intros x. apply byte_xor_changes, bit_mask_nonzero, Hb.
Qed.

Lemma transform_flip_bit (d : CCM.Cipher) (i bit : nat) (data : list byte) :
  CCM.transform d (flip_bit i bit data) = flip_bit i bit (CCM.transform d data).
Proof. apply ProcessData_update_nth. Qed.

End CryptoLemmas.


(* ================================================================== *)
(** * [EncryptDataFrame] and [DecryptDataFrame]: what the [try] blocks do *)
(* ================================================================== *)

Section FrameLemmas.

Open Scope Z_scope.

Variables (ccmp_key : list byte) (sender receiver : MacAddress) (sequence_number : Z).

Lemma transform_size (d : CCM.Cipher) (data : list byte) :
  size (CCM.transform d data) = size data.
Proof. unfold size. rewrite transform_length. reflexivity. Qed.

Lemma mac_size (d : CCM.Cipher) (header message : list byte) :
  size (CCM.mac d header message) = 8.
Proof. unfold size. rewrite mac_length. reflexivity. Qed.

Lemma nonce_same :
  NWM.EncryptDataFrame_nonce sender sequence_number
  = NWM.DecryptDataFrame_nonce sender sequence_number.
Proof. reflexivity. Qed.

Lemma nonce_size : size (NWM.DecryptDataFrame_nonce sender sequence_number) = 13.
Proof. reflexivity. Qed.

Lemma GenerateCCMPAAD_size : size (NWM.GenerateCCMPAAD sender receiver) = 22.
Proof.
  unfold NWM.GenerateCCMPAAD, memcpy_object, size. rewrite resize_length. reflexivity.
Qed.

Lemma SetKeyWithIV_frame :
  AES.IsValidKeyLength (length ccmp_key) = true ->
  CCM.SetKeyWithIV ccmp_key (NWM.DecryptDataFrame_nonce sender sequence_number)
  = Ret {| CCM.m_key := ccmp_key;
           CCM.m_iv := NWM.DecryptDataFrame_nonce sender sequence_number;
           CCM.m_L := 2; CCM.m_aadLength := 0; CCM.m_messageLength := 0 |}.
Proof.
  intros Hk. unfold CCM.SetKeyWithIV. rewrite Hk, nonce_size. reflexivity.
Qed.

Lemma SetKeyWithIV_bad_key :
  AES.IsValidKeyLength (length ccmp_key) = false ->
  CCM.SetKeyWithIV ccmp_key (NWM.DecryptDataFrame_nonce sender sequence_number)
  = Throw InvalidKeyLength.
Proof.
  intros Hk. unfold CCM.SetKeyWithIV. rewrite Hk. reflexivity.
Qed.

Lemma SpecifyDataLengths_frame (len : Z) :
  len <= 65535 ->
  CCM.SpecifyDataLengths
    {| CCM.m_key := ccmp_key;
       CCM.m_iv := NWM.DecryptDataFrame_nonce sender sequence_number;
       CCM.m_L := 2; CCM.m_aadLength := 0; CCM.m_messageLength := 0 |} 22 len 0
  = Ret (frame_cipher ccmp_key sender sequence_number len).
Proof.
  intros H. unfold CCM.SpecifyDataLengths, CCM.MaxHeaderLength, CCM.MaxMessageLength,
    CCM.MaxFooterLength. cbn [CCM.m_L CCM.m_key CCM.m_iv].
  change (2 <? 8) with true. change (2 ^ 64 - 1 <? 22) with false.
  change (2 ^ (8 * 2) - 1) with 65535. change (0 <? 0) with false.
  cbv iota. destruct (65535 <? len) eqn:E; [apply Z.ltb_lt in E; lia|].
  reflexivity.
Qed.

Lemma SpecifyDataLengths_too_long (len : Z) :
  65535 < len ->
  CCM.SpecifyDataLengths
    {| CCM.m_key := ccmp_key;
       CCM.m_iv := NWM.DecryptDataFrame_nonce sender sequence_number;
       CCM.m_L := 2; CCM.m_aadLength := 0; CCM.m_messageLength := 0 |} 22 len 0
  = Throw InvalidArgument.
Proof.
  intros H. unfold CCM.SpecifyDataLengths, CCM.MaxHeaderLength, CCM.MaxMessageLength,
    CCM.MaxFooterLength. cbn [CCM.m_L CCM.m_key CCM.m_iv].
  change (2 <? 8) with true. change (2 ^ 64 - 1 <? 22) with false.
  change (2 ^ (8 * 2) - 1) with 65535.
  cbv iota. destruct (65535 <? len) eqn:E; [reflexivity|apply Z.ltb_ge in E; lia].
Qed.

Lemma ChannelPut_all (df : CCM.Filter) (channel : CCM.Channel) (buf : list byte) :
  CCM.ChannelPut df channel buf 0 (size buf) = Ret (CCM.put df channel buf).
Proof. unfold CCM.ChannelPut. rewrite buffer_read_all. reflexivity. Qed.

Lemma Get_all (df : CCM.Filter) :
  size (CCM.f_output df) < 2 ^ 31 ->
  CCM.Get df (NWM.to_int (CCM.MaxRetrievable df)) = CCM.f_output df.
Proof.
  intros H. unfold CCM.MaxRetrievable, CCM.Get.
  rewrite to_int_small by (pose proof (size_nonneg (CCM.f_output df)); lia).
  unfold size. rewrite Nat2Z.id, firstn_all. apply resize_exact.
Qed.

(** What the [try] block of [EncryptDataFrame] computes. *)
Lemma EncryptDataFrame_try_ok (payload : list byte) :
  AES.IsValidKeyLength (length ccmp_key) = true ->
  size payload <= 65535 ->
  NWM.EncryptDataFrame_try payload ccmp_key sender receiver sequence_number
  = Ret (CCM.transform (frame_cipher ccmp_key sender sequence_number (size payload)) payload
         ++ CCM.mac (frame_cipher ccmp_key sender sequence_number (size payload))
              (NWM.GenerateCCMPAAD sender receiver) payload).
Proof.
  intros Hk Hlen. unfold NWM.EncryptDataFrame_try.
  rewrite nonce_same, SetKeyWithIV_frame by exact Hk. rewrite bind_Ret.
  rewrite GenerateCCMPAAD_size, SpecifyDataLengths_frame by exact Hlen. rewrite bind_Ret.
  change 22 with (size (NWM.GenerateCCMPAAD sender receiver)) at 1.
  rewrite ChannelPut_all, bind_Ret.
  cbn [CCM.Encryption_ChannelMessageEnd]. rewrite bind_Ret.
  rewrite ChannelPut_all, bind_Ret.
  unfold CCM.Encryption_ChannelMessageEnd, CCM.lengths_match, CCM.put,
    CCM.AuthenticatedEncryptionFilter.
  cbn [CCM.f_cipher CCM.f_header CCM.f_input CCM.f_output app
       CCM.m_aadLength CCM.m_messageLength frame_cipher].
  rewrite GenerateCCMPAAD_size, !Z.eqb_refl. cbn [andb negb]. rewrite bind_Ret.
  rewrite Get_all; [reflexivity|].
  cbn [CCM.f_output]. rewrite size_app, transform_size, mac_size. lia.
Qed.

Lemma Decryption_ChannelMessageEnd_default (d : CCM.Cipher)
    (header ciphertext tag output : list byte) :
  length tag = 8%nat ->
  size header = CCM.m_aadLength d ->
  size ciphertext = CCM.m_messageLength d ->
  CCM.Decryption_ChannelMessageEnd
    (CCM.mkFilter d header (ciphertext ++ tag) output) CCM.DEFAULT_CHANNEL
  = if CCM.verifies d header ciphertext tag
    then Ret (CCM.mkFilter d header (ciphertext ++ tag) (CCM.transform d ciphertext))
    else Throw HashVerificationFailed.
Proof.
  intros Ht Hh Hc. unfold CCM.Decryption_ChannelMessageEnd, CCM.lengths_match.
  cbn [CCM.f_cipher CCM.f_header CCM.f_input CCM.f_output].
  change CCM.DIGESTSIZE with 8%nat.
  rewrite length_app, Ht.
  replace (length ciphertext + 8 <? 8)%nat with false
    by (symmetry; apply Nat.ltb_ge; lia).
  replace (length ciphertext + 8 - 8)%nat with (length ciphertext) by lia.
  rewrite firstn_app, Nat.sub_diag, firstn_all, firstn_O, app_nil_r.
  rewrite skipn_app, Nat.sub_diag, skipn_all, skipn_O. cbn [app].
  rewrite Hh, Hc, !Z.eqb_refl. cbn [andb negb].
  destruct (CCM.verifies d header ciphertext tag); reflexivity.
Qed.

Lemma buffer_read_tail (buf : list byte) :
  (8 <= length buf)%nat ->
  buffer_read buf (size buf - 8) 8 = Ret (skipn (length buf - 8) buf).
Proof.
  intros H. rewrite <- (buffer_read_skipn buf (n := length buf - 8)) by lia.
  f_equal; unfold size; lia.
Qed.

Lemma message_length_exact (buf : list byte) :
  (8 <= length buf)%nat -> size buf <= SIZE_MAX ->
  NWM.DecryptDataFrame_message_length buf = Z.of_nat (length buf - 8).
Proof.
  intros H Hmax. unfold NWM.DecryptDataFrame_message_length, size_sub, size_t.
  unfold size, SIZE_MAX in *. rewrite Z.mod_small; lia.
Qed.

(** A frame shorter than the tag: the subtraction wraps around. *)
Lemma message_length_wraps (buf : list byte) :
  (length buf < 8)%nat ->
  NWM.DecryptDataFrame_message_length buf = 2 ^ 64 - 8 + size buf.
Proof.
  intros H. unfold NWM.DecryptDataFrame_message_length, size_sub, size_t, size.
  replace (Z.of_nat (length buf) - 8)
    with (2 ^ 64 - 8 + Z.of_nat (length buf) + (-1) * 2 ^ 64) by lia.
  rewrite Z.mod_add by lia. rewrite Z.mod_small; lia.
Qed.

Lemma message_length_bounds (buf : list byte) :
  0 <= NWM.DecryptDataFrame_message_length buf < 2 ^ 64.
Proof.
  unfold NWM.DecryptDataFrame_message_length, size_sub, size_t.
  apply Z.mod_pos_bound. lia.
Qed.

(** When the announced length is one that [SpecifyDataLengths] accepts, the
    frame holds a tag and the announced length is within the frame. *)
Lemma message_length_accepted (buf : list byte) :
  NWM.DecryptDataFrame_message_length buf <= 65535 ->
  (8 <= length buf)%nat
  /\ NWM.DecryptDataFrame_message_length buf <= size buf - 8.
Proof.
  intros H.
  assert (H8 : (8 <= length buf)%nat).
  { destruct (Nat.lt_ge_cases (length buf) 8) as [Hlt|Hge]; [|exact Hge].
    rewrite message_length_wraps in H by exact Hlt.
    pose proof (size_nonneg buf). lia. }
  split; [exact H8|].
  unfold NWM.DecryptDataFrame_message_length, size_sub, size_t.
  apply Z.mod_le; unfold size; lia.
Qed.

(** What the [try] block of [DecryptDataFrame] computes on a frame that
    [SpecifyDataLengths] accepts. *)
Lemma DecryptDataFrame_try_accepted (encrypted_payload : list byte) :
  AES.IsValidKeyLength (length ccmp_key) = true ->
  NWM.DecryptDataFrame_message_length encrypted_payload <= 65535 ->
  let len := NWM.DecryptDataFrame_message_length encrypted_payload in
  let d := frame_cipher ccmp_key sender sequence_number len in
  let input := firstn (Z.to_nat len) encrypted_payload
               ++ skipn (length encrypted_payload - 8) encrypted_payload in
  let n := length input in
  NWM.DecryptDataFrame_try encrypted_payload ccmp_key sender receiver sequence_number
  = if CCM.verifies d (NWM.GenerateCCMPAAD sender receiver)
         (firstn (Z.to_nat len) encrypted_payload)
         (skipn (length encrypted_payload - 8) encrypted_payload)
    then Ret (CCM.transform d (firstn (Z.to_nat len) encrypted_payload))
    else Throw HashVerificationFailed.
Proof.
  intros Hk Hlen len d input n.
  destruct (message_length_accepted _ Hlen) as [H8 Hin].
  pose proof (message_length_bounds encrypted_payload) as Hb.
  fold len in Hlen, Hin, Hb.
  unfold NWM.DecryptDataFrame_try. fold len.
  rewrite SetKeyWithIV_frame by exact Hk. rewrite bind_Ret.
  rewrite GenerateCCMPAAD_size at 1.
  rewrite SpecifyDataLengths_frame by exact Hlen. rewrite bind_Ret. fold d.
  rewrite ChannelPut_all, bind_Ret.
  unfold CCM.ChannelPut at 1.
  rewrite <- (Z2Nat.id len) at 1 by lia.
  rewrite buffer_read_firstn by (unfold size in Hin; lia). rewrite bind_Ret.
  unfold CCM.ChannelPut at 1.
  rewrite buffer_read_tail by exact H8. rewrite !bind_Ret.
  change (CCM.Decryption_ChannelMessageEnd ?df CCM.AAD_CHANNEL) with (Ret df).
  rewrite bind_Ret.
  change (CCM.put (CCM.put (CCM.put (CCM.AuthenticatedDecryptionFilter d)
            CCM.AAD_CHANNEL (NWM.GenerateCCMPAAD sender receiver))
            CCM.DEFAULT_CHANNEL (firstn (Z.to_nat len) encrypted_payload))
            CCM.DEFAULT_CHANNEL (skipn (length encrypted_payload - 8) encrypted_payload))
    with (CCM.mkFilter d (NWM.GenerateCCMPAAD sender receiver)
            (firstn (Z.to_nat len) encrypted_payload
             ++ skipn (length encrypted_payload - 8) encrypted_payload) []).
  assert (Hct : size (firstn (Z.to_nat len) encrypted_payload) = len).
  { unfold size in *. rewrite length_firstn. lia. }
  rewrite Decryption_ChannelMessageEnd_default;
    [ | rewrite length_skipn; lia | apply GenerateCCMPAAD_size | exact Hct ].
  destruct (CCM.verifies d (NWM.GenerateCCMPAAD sender receiver)
              (firstn (Z.to_nat len) encrypted_payload)
              (skipn (length encrypted_payload - 8) encrypted_payload));
    [|reflexivity].
  rewrite bind_Ret, Get_all; [reflexivity|].
  cbn [CCM.f_output]. rewrite transform_size, Hct. lia.
Qed.

(** On a frame a vector can hold, this is verification of its last eight
    bytes against everything before them. *)
Lemma DecryptDataFrame_try_verifies (encrypted_payload : list byte) :
  AES.IsValidKeyLength (length ccmp_key) = true ->
  (8 <= length encrypted_payload)%nat ->
  size encrypted_payload <= 65535 + 8 ->
  NWM.DecryptDataFrame_try encrypted_payload ccmp_key sender receiver sequence_number
  = if tag_verifies encrypted_payload ccmp_key sender receiver sequence_number
    then Ret (CCM.transform
                (frame_cipher ccmp_key sender sequence_number
                   (Z.of_nat (length encrypted_payload - 8)))
                (firstn (length encrypted_payload - 8) encrypted_payload))
    else Throw HashVerificationFailed.
Proof.
  intros Hk H8 Hmax.
  assert (Hlen : NWM.DecryptDataFrame_message_length encrypted_payload
                 = Z.of_nat (length encrypted_payload - 8)).
  { apply message_length_exact; [exact H8|]. unfold SIZE_MAX. lia. }
  rewrite DecryptDataFrame_try_accepted;
    [ | exact Hk | rewrite Hlen; unfold size in Hmax; lia ].
  rewrite Hlen, Nat2Z.id. unfold tag_verifies.
  replace (8 <=? length encrypted_payload)%nat with true
    by (symmetry; apply Nat.leb_le; exact H8).
  reflexivity.
Qed.

(** A frame too short or too long is refused by [SpecifyDataLengths]. *)
Lemma DecryptDataFrame_try_refused (encrypted_payload : list byte) :
  AES.IsValidKeyLength (length ccmp_key) = true ->
  65535 < NWM.DecryptDataFrame_message_length encrypted_payload ->
  NWM.DecryptDataFrame_try encrypted_payload ccmp_key sender receiver sequence_number
  = Throw InvalidArgument.
Proof.
  intros Hk Hlen. unfold NWM.DecryptDataFrame_try.
  rewrite SetKeyWithIV_frame by exact Hk. rewrite bind_Ret.
  rewrite GenerateCCMPAAD_size at 1.
  rewrite SpecifyDataLengths_too_long by exact Hlen. reflexivity.
Qed.

Lemma DecryptDataFrame_try_bad_key (encrypted_payload : list byte) :
  AES.IsValidKeyLength (length ccmp_key) = false ->
  NWM.DecryptDataFrame_try encrypted_payload ccmp_key sender receiver sequence_number
  = Throw InvalidKeyLength.
Proof.
  intros Hk. unfold NWM.DecryptDataFrame_try.
  rewrite SetKeyWithIV_bad_key by exact Hk. reflexivity.
Qed.

Lemma EncryptDataFrame_try_refused (payload : list byte) :
  AES.IsValidKeyLength (length ccmp_key) = true ->
  65535 < size payload ->
  NWM.EncryptDataFrame_try payload ccmp_key sender receiver sequence_number
  = Throw InvalidArgument.
Proof.
  intros Hk Hlen. unfold NWM.EncryptDataFrame_try.
  rewrite nonce_same, SetKeyWithIV_frame by exact Hk. rewrite bind_Ret.
  rewrite GenerateCCMPAAD_size at 1.
  rewrite SpecifyDataLengths_too_long by exact Hlen. reflexivity.
Qed.

Lemma EncryptDataFrame_try_bad_key (payload : list byte) :
  AES.IsValidKeyLength (length ccmp_key) = false ->
  NWM.EncryptDataFrame_try payload ccmp_key sender receiver sequence_number
  = Throw InvalidKeyLength.
Proof.
  intros Hk. unfold NWM.EncryptDataFrame_try.
  rewrite nonce_same, SetKeyWithIV_bad_key by exact Hk. reflexivity.
Qed.

(** The [try] blocks never read outside a buffer. *)
Lemma EncryptDataFrame_try_no_fault (payload : list byte) :
  NWM.EncryptDataFrame_try payload ccmp_key sender receiver sequence_number <> Fault.
Proof.
  destruct (AES.IsValidKeyLength (length ccmp_key)) eqn:Hk.
  - destruct (Z.le_gt_cases (size payload) 65535) as [Hle|Hgt].
    + rewrite EncryptDataFrame_try_ok by assumption. discriminate.
    + rewrite EncryptDataFrame_try_refused by assumption. discriminate.
  - rewrite EncryptDataFrame_try_bad_key by assumption. discriminate.
Qed.

Lemma DecryptDataFrame_try_no_fault (encrypted_payload : list byte) :
  NWM.DecryptDataFrame_try encrypted_payload ccmp_key sender receiver sequence_number
  <> Fault.
Proof.
  destruct (AES.IsValidKeyLength (length ccmp_key)) eqn:Hk.
  - destruct (Z.le_gt_cases (NWM.DecryptDataFrame_message_length encrypted_payload) 65535)
      as [Hle|Hgt].
    + rewrite DecryptDataFrame_try_accepted by assumption.
      match goal with |- (if ?c then _ else _) <> _ => destruct c end; discriminate.
    + rewrite DecryptDataFrame_try_refused by assumption. discriminate.
  - rewrite DecryptDataFrame_try_bad_key by assumption. discriminate.
Qed.

End FrameLemmas.


(* ================================================================== *)
(** * Integer encodings, the first counter block, digest sizes *)
(* ================================================================== *)

Section EncodingLemmas.

Open Scope Z_scope.

Lemma u8_to_Z_u8 (z : Z) : u8_to_Z (u8 z) = z mod 256.
Proof.
  unfold u8_to_Z, u8.
  assert (Hb : 0 <= z mod 256 < 256) by (apply Z.mod_pos_bound; lia).
  destruct (Byte.of_N (Z.to_N (z mod 256))) as [b|] eqn:E.
  - apply Byte.to_of_N in E. rewrite E. lia.
  - apply Byte.of_N_None_iff in E. lia.
Qed.

Lemma u8_to_Z_range (b : byte) : 0 <= u8_to_Z b < 256.
Proof.
  unfold u8_to_Z. pose proof (Byte.to_N_bounded b). lia.
Qed.

Lemma u8_u8_to_Z (b : byte) : u8 (u8_to_Z b) = b.
Proof.
  unfold u8. rewrite Z.mod_small by apply u8_to_Z_range.
  unfold u8_to_Z. rewrite N2Z.id, Byte.of_to_N. reflexivity.
Qed.

(** [static_cast<u8>] only sees the value modulo 256. *)
Lemma u8_mod (a b : Z) : a mod 256 = b mod 256 -> u8 a = u8 b.
Proof. intros H. unfold u8. rewrite H. reflexivity. Qed.

Lemma u8_land_FF (z : Z) : u8 (Z.land z 0xFF) = u8 z.
Proof.
  apply u8_mod. change 0xFF with (Z.ones 8). rewrite Z.land_ones by lia.
  change (2 ^ 8) with 256. apply Z.mod_mod. lia.
Qed.

Lemma be_bytes_length (n : nat) (z : Z) : length (be_bytes n z) = n.
Proof. induction n as [|n IH]; simpl; [reflexivity|]. rewrite IH. reflexivity. Qed.

Lemma le_bytes_length (n : nat) : forall z, length (le_bytes n z) = n.
Proof. induction n as [|n IH]; intros z; simpl; [reflexivity|]. rewrite IH. reflexivity. Qed.

Lemma be_bytes_2 (z : Z) : be_bytes 2 z = [u8 (Z.shiftr z 8); u8 z].
Proof. reflexivity. Qed.

Lemma be_bytes_u16 (z : Z) : be_bytes 2 (u16 z) = be_bytes 2 z.
Proof.
  rewrite !be_bytes_2. unfold u16. f_equal; [|f_equal].
  - apply u8_mod. rewrite !Z.shiftr_div_pow2 by lia. change (2 ^ 8) with 256.
    change 65536 with (256 * 256). rewrite Z.rem_mul_r by lia.
    rewrite (Z.add_comm (z mod 256)), Z.mul_comm, Z.div_add_l by lia.
    rewrite (Z.div_small (z mod 256)) by (apply Z.mod_pos_bound; lia).
    rewrite Z.add_0_r. apply Z.mod_mod. lia.
  - apply u8_mod. change 65536 with (256 * 256).
    rewrite Z.rem_mul_r by lia.
    rewrite Z.mul_comm, Z.mod_add by lia. apply Z.mod_mod. lia.
Qed.

Lemma be_value_app (a : list byte) (b : byte) :
  be_value (a ++ [b]) = be_value a * 256 + u8_to_Z b.
Proof. unfold be_value. rewrite fold_left_app. reflexivity. Qed.

Lemma be_bytes_snoc (n : nat) : forall z,
  be_bytes (S n) z = be_bytes n (Z.shiftr z 8) ++ [u8 z].
Proof.
  induction n as [|n IH]; intros z.
  - reflexivity.
  - change (be_bytes (S (S n)) z)
      with (u8 (Z.shiftr z (8 * Z.of_nat (S n))) :: be_bytes (S n) z).
    rewrite IH. change (be_bytes (S n) (Z.shiftr z 8))
      with (u8 (Z.shiftr (Z.shiftr z 8) (8 * Z.of_nat n)) :: be_bytes n (Z.shiftr z 8)).
    rewrite Z.shiftr_shiftr by lia. cbn [app].
    do 3 f_equal. lia.
Qed.

(** Writing a byte string as a big-endian number and back. *)
Lemma be_bytes_be_value (l : list byte) : be_bytes (length l) (be_value l) = l.
Proof.
  induction l as [|b l IH] using rev_ind; [reflexivity|].
  rewrite length_app, Nat.add_comm. cbn [length Nat.add].
  rewrite be_bytes_snoc, be_value_app.
  pose proof (u8_to_Z_range b) as Hb.
  rewrite Z.shiftr_div_pow2 by lia. change (2 ^ 8) with 256.
  rewrite Z.div_add_l by lia. rewrite Z.div_small by lia. rewrite Z.add_0_r, IH.
  f_equal. f_equal. rewrite <- (u8_u8_to_Z b) at 2. apply u8_mod.
  rewrite Z.add_comm, Z.mod_add by lia. reflexivity.
Qed.

Lemma counter_0 (iv : list byte) : CTR_Mode.counter iv 0 = resize AES.BLOCKSIZE iv.
Proof.
  unfold CTR_Mode.counter. rewrite Z.add_0_r.
  rewrite <- (resize_length AES.BLOCKSIZE iv) at 1. apply be_bytes_be_value.
Qed.

Lemma ProcessBlock_length (key block : list byte) :
  length (AES.ProcessBlock key block) = 16%nat.
Proof. unfold AES.ProcessBlock. apply resize_length. Qed.

Lemma ProcessBlock_resize (key block : list byte) :
  AES.ProcessBlock key (resize AES.BLOCKSIZE block) = AES.ProcessBlock key block.
Proof. unfold AES.ProcessBlock. rewrite resize_resize. reflexivity. Qed.

Lemma skipn_nth_cons (l : list byte) (i : nat) :
  (i < length l)%nat -> skipn i l = nth i l x00 :: skipn (S i) l.
Proof.
  revert i. induction l as [|x l IH]; intros [|i] H; simpl in *; try lia; [reflexivity|].
  apply IH. lia.
Qed.

(** Within the first block, counter mode is xor with the encrypted counter. *)
Lemma ProcessData_first_block (key iv : list byte) (data : list byte) :
  forall pos, (pos + length data <= 16)%nat ->
    CTR_Mode.ProcessData key iv pos data
    = xor_bytes data (skipn pos (AES.ProcessBlock key iv)).
Proof.
  induction data as [|b rest IH]; intros pos H; simpl in *; [reflexivity|].
  rewrite (skipn_nth_cons (AES.ProcessBlock key iv) (i := pos))
    by (rewrite ProcessBlock_length; lia).
  rewrite IH by lia. f_equal. f_equal.
  unfold CTR_Mode.keystream_byte.
  rewrite Nat.mod_small, Nat.div_small by lia.
  change (Z.of_nat 0) with 0. rewrite counter_0, ProcessBlock_resize. reflexivity.
Qed.

Lemma CalculateDigest_length (input : list byte) :
  length (MD5.CalculateDigest input) = 16%nat.
Proof.
  unfold MD5.CalculateDigest.
  destruct (fold_left MD5.Transform _ _) as [[[a b] c] d].
  rewrite !length_app, !le_bytes_length. reflexivity.
Qed.

End EncodingLemmas.


(* ================================================================== *)
(** * The properties of the specification *)
(* ================================================================== *)

Section Claims.

Open Scope Z_scope.

Lemma valid_key_16 (ccmp_key : list byte) :
  length ccmp_key = 16%nat -> AES.IsValidKeyLength (length ccmp_key) = true.
Proof. intros H. rewrite H. reflexivity. Qed.

Lemma Ret_inj {A : Type} (a b : A) : Ret a = Ret b -> a = b.
Proof. intros H. injection H as H. exact H. Qed.

Lemma try_catch_Ret {A : Type} (body : outcome A) (h : Exception -> outcome A) (a : A) :
  body = Ret a -> try_catch body h = Ret a.
Proof. intros H. rewrite H. reflexivity. Qed.

Lemma tag_verifies_frame (ciphertext tag ccmp_key : list byte)
    (sender receiver : MacAddress) (sequence_number : Z) :
  length tag = 8%nat ->
  let d := frame_cipher ccmp_key sender sequence_number (size ciphertext) in
  tag_verifies (ciphertext ++ tag) ccmp_key sender receiver sequence_number
  = bytes_eqb tag (CCM.mac d (NWM.GenerateCCMPAAD sender receiver)
                     (CCM.transform d ciphertext)).
Proof.
  intros Ht d.
  assert (Hn : (length (ciphertext ++ tag) - 8 = length ciphertext)%nat)
    by (rewrite length_app; lia).
  unfold tag_verifies, CCM.verifies. rewrite Hn.
  replace (8 <=? length (ciphertext ++ tag))%nat with true
    by (symmetry; apply Nat.leb_le; rewrite length_app; lia).
  rewrite firstn_app, Nat.sub_diag, firstn_all, firstn_O, app_nil_r.
  rewrite skipn_app, Nat.sub_diag, skipn_all, skipn_O. cbn [app andb].
  reflexivity.
Qed.

(** A frame made of a cipher text and eight more bytes: decryption checks
    those eight bytes against the tag of what the cipher text decrypts to. *)
Lemma DecryptDataFrame_try_frame (ciphertext tag ccmp_key : list byte)
    (sender receiver : MacAddress) (sequence_number : Z) :
  AES.IsValidKeyLength (length ccmp_key) = true ->
  length tag = 8%nat ->
  size ciphertext <= 65535 ->
  let d := frame_cipher ccmp_key sender sequence_number (size ciphertext) in
  NWM.DecryptDataFrame_try (ciphertext ++ tag) ccmp_key sender receiver sequence_number
  = if bytes_eqb tag (CCM.mac d (NWM.GenerateCCMPAAD sender receiver)
                        (CCM.transform d ciphertext))
    then Ret (CCM.transform d ciphertext)
    else Throw HashVerificationFailed.
Proof.
  intros Hk Ht Hlen d.
  assert (Hn : (length (ciphertext ++ tag) - 8 = length ciphertext)%nat)
    by (rewrite length_app; lia).
  rewrite DecryptDataFrame_try_verifies;
    [ | exact Hk | rewrite length_app; lia | rewrite size_app; unfold size at 2; lia ].
  rewrite tag_verifies_frame by exact Ht. fold d.
  rewrite Hn, firstn_app, Nat.sub_diag, firstn_all, firstn_O, app_nil_r.
  reflexivity.
Qed.

(** C1 (as amended).  For every plaintext of at most 65535 bytes (the
    largest message CCM takes with a 13-byte nonce), every 16-byte key,
    sender and receiver address and sequence number, encryption succeeds and
    decrypting its result with the same parameters returns the plaintext. *)
Theorem EncryptDataFrame_DecryptDataFrame_roundtrip :
  forall (payload ccmp_key : list byte) (sender receiver : MacAddress)
         (sequence_number : Z),
    length ccmp_key = 16%nat ->
    size payload <= 65535 ->
    exists encrypted,
      NWM.EncryptDataFrame payload ccmp_key sender receiver sequence_number = Ret encrypted
      /\ NWM.DecryptDataFrame encrypted ccmp_key sender receiver sequence_number
         = Ret payload.
Proof.
  intros payload ccmp_key sender receiver sequence_number Hkey Hlen.
  apply valid_key_16 in Hkey.
  eexists. split.
  - unfold NWM.EncryptDataFrame. apply try_catch_Ret.
    apply EncryptDataFrame_try_ok; assumption.
  - unfold NWM.DecryptDataFrame. apply try_catch_Ret.
    rewrite DecryptDataFrame_try_frame;
      [ | exact Hkey | apply mac_length | rewrite transform_size; exact Hlen ].
    rewrite transform_size, transform_involutive, bytes_eqb_refl. reflexivity.
Qed.

Lemma EncryptDataFrame_DecryptDataFrame_roundtrip_witness :
  exists encrypted,
    NWM.EncryptDataFrame example_payload example_key example_sender example_receiver 0x1234
    = Ret encrypted
    /\ NWM.DecryptDataFrame encrypted example_key example_sender example_receiver 0x1234
       = Ret example_payload.
Proof.
  apply EncryptDataFrame_DecryptDataFrame_roundtrip.
  - reflexivity.
  - vm_compute. discriminate.
Defined.

(** A payload CCM refuses: encryption returns the empty vector, and the
    decryption of the empty vector is empty as well. *)
Lemma roundtrip_of_long_payload (payload ccmp_key : list byte)
    (sender receiver : MacAddress) (sequence_number : Z) :
  AES.IsValidKeyLength (length ccmp_key) = true ->
  65535 < size payload ->
  (encrypted <- NWM.EncryptDataFrame payload ccmp_key sender receiver sequence_number ;;
   NWM.DecryptDataFrame encrypted ccmp_key sender receiver sequence_number)
  = Ret [].
Proof.
  intros Hk Hlen. unfold NWM.EncryptDataFrame.
  rewrite EncryptDataFrame_try_refused by assumption.
  cbn [try_catch]. rewrite bind_Ret. unfold NWM.DecryptDataFrame.
  rewrite DecryptDataFrame_try_refused; [reflexivity|exact Hk|].
  rewrite message_length_wraps by (cbn [length]; lia). unfold size. cbn [length]. lia.
Qed.

(** C1, as stated, fails on a plaintext of 65536 bytes: [SpecifyDataLengths]
    refuses it, encryption returns the empty vector, and so does the
    decryption of that. *)
Lemma roundtrip_fails_above_65535_bytes :
  (encrypted <- NWM.EncryptDataFrame (repeat x00 (Z.to_nat 65536))
                  example_key example_sender example_receiver 0 ;;
   NWM.DecryptDataFrame encrypted example_key example_sender example_receiver 0)
  <> Ret (repeat x00 (Z.to_nat 65536)).
Proof.
  rewrite roundtrip_of_long_payload.
  - intros H. apply Ret_inj in H.
    apply (f_equal (@length byte)) in H. rewrite repeat_length in H.
    cbn [length] in H. lia.
  - reflexivity.
  - unfold size. rewrite repeat_length. lia.
Qed.

(** Every way the [try] block of [DecryptDataFrame] can end when the tag
    of the frame does not verify. *)
Lemma DecryptDataFrame_try_unverified (encrypted_payload ccmp_key : list byte)
    (sender receiver : MacAddress) (sequence_number : Z) :
  size encrypted_payload <= SIZE_MAX ->
  tag_verifies encrypted_payload ccmp_key sender receiver sequence_number = false ->
  exists e,
    NWM.DecryptDataFrame_try encrypted_payload ccmp_key sender receiver sequence_number
    = Throw e.
Proof.
  intros Hmax Hv.
  destruct (AES.IsValidKeyLength (length ccmp_key)) eqn:Hk.
  - destruct (Z.le_gt_cases (NWM.DecryptDataFrame_message_length encrypted_payload) 65535)
      as [Hle|Hgt].
    + destruct (message_length_accepted _ Hle) as [H8 _].
      pose proof (message_length_exact _ H8 Hmax) as Hex.
      exists HashVerificationFailed.
      rewrite DecryptDataFrame_try_verifies;
        [ rewrite Hv; reflexivity | exact Hk | exact H8 | unfold size; lia ].
    + exists InvalidArgument. apply DecryptDataFrame_try_refused; assumption.
  - exists InvalidKeyLength. apply DecryptDataFrame_try_bad_key; assumption.
Qed.

(** What a successful encryption returns. *)
Lemma EncryptDataFrame_try_Ret (payload encrypted ccmp_key : list byte)
    (sender receiver : MacAddress) (sequence_number : Z) :
  NWM.EncryptDataFrame_try payload ccmp_key sender receiver sequence_number
  = Ret encrypted ->
  let d := frame_cipher ccmp_key sender sequence_number (size payload) in
  AES.IsValidKeyLength (length ccmp_key) = true
  /\ size payload <= 65535
  /\ encrypted = CCM.transform d payload
                 ++ CCM.mac d (NWM.GenerateCCMPAAD sender receiver) payload.
Proof.
  intros H d.
  destruct (AES.IsValidKeyLength (length ccmp_key)) eqn:Hk.
  - destruct (Z.le_gt_cases (size payload) 65535) as [Hle|Hgt].
    + rewrite EncryptDataFrame_try_ok in H by assumption.
      apply Ret_inj in H. auto.
    + rewrite EncryptDataFrame_try_refused in H by assumption. discriminate.
  - rewrite EncryptDataFrame_try_bad_key in H by assumption. discriminate.
Qed.

(** X15.  Whenever the last eight bytes of the input do not verify as the
    tag of the bytes before them, under the AAD and nonce rebuilt from the
    addresses and the sequence number, [DecryptDataFrame] fails closed: the
    [try] block ends in an exception, so nothing it decrypted is returned,
    and the function returns the empty vector. *)
Theorem DecryptDataFrame_fails_closed :
  forall (encrypted_payload ccmp_key : list byte) (sender receiver : MacAddress)
         (sequence_number : Z),
    size encrypted_payload <= SIZE_MAX ->
    tag_verifies encrypted_payload ccmp_key sender receiver sequence_number = false ->
    (exists e,
        NWM.DecryptDataFrame_try encrypted_payload ccmp_key sender receiver
          sequence_number = Throw e)
    /\ NWM.DecryptDataFrame encrypted_payload ccmp_key sender receiver sequence_number
       = Ret [].
Proof.
  intros encrypted_payload ccmp_key sender receiver sequence_number Hmax Hv.
  destruct (DecryptDataFrame_try_unverified _ _ _ _ _ Hmax Hv) as [e He].
  split; [exists e; exact He|].
  unfold NWM.DecryptDataFrame. rewrite He. reflexivity.
Qed.

Lemma DecryptDataFrame_fails_closed_witness :
  NWM.DecryptDataFrame [x00; x01; x02; x03; x04; x05; x06; x07; x08]
    example_key example_sender example_receiver 0x1234 = Ret [].
Proof.
  apply (@DecryptDataFrame_fails_closed [x00; x01; x02; x03; x04; x05; x06; x07; x08]
           example_key example_sender example_receiver 0x1234).
  - vm_compute. discriminate.
  - vm_compute. reflexivity.
Defined.

(** X17.  A bit flipped in the cipher text of an encrypted frame: whatever
    [DecryptDataFrame] makes of the frame, it returns either the empty
    vector or the payload with that same bit flipped, and never the payload
    that was encrypted. *)
Theorem DecryptDataFrame_flipped_ciphertext_bit :
  forall (payload encrypted ccmp_key : list byte) (sender receiver : MacAddress)
         (sequence_number : Z) (i bit : nat),
    NWM.EncryptDataFrame_try payload ccmp_key sender receiver sequence_number
    = Ret encrypted ->
    (i < length payload)%nat -> (bit < 8)%nat ->
    (NWM.DecryptDataFrame (flip_bit i bit encrypted) ccmp_key sender receiver
       sequence_number = Ret []
     \/ NWM.DecryptDataFrame (flip_bit i bit encrypted) ccmp_key sender receiver
          sequence_number = Ret (flip_bit i bit payload))
    /\ NWM.DecryptDataFrame (flip_bit i bit encrypted) ccmp_key sender receiver
         sequence_number <> Ret payload.
Proof.
  intros payload encrypted ccmp_key sender receiver sequence_number i bit Henc Hi Hbit.
  destruct (EncryptDataFrame_try_Ret _ _ _ _ _ Henc) as (Hk & Hlen & ->).
  set (d := frame_cipher ccmp_key sender sequence_number (size payload)).
  set (aad := NWM.GenerateCCMPAAD sender receiver).
  assert (Hflip : flip_bit i bit (CCM.transform d payload ++ CCM.mac d aad payload)
                  = CCM.transform d (flip_bit i bit payload) ++ CCM.mac d aad payload).
  { rewrite transform_flip_bit. unfold flip_bit.
    apply update_nth_app_l. rewrite transform_length. exact Hi. }
  rewrite Hflip.
  assert (Hsz : size (flip_bit i bit payload) = size payload)
    by (unfold size; rewrite flip_bit_length; reflexivity).
  unfold NWM.DecryptDataFrame.
  rewrite DecryptDataFrame_try_frame;
    [ | exact Hk | apply mac_length | rewrite transform_size, Hsz; exact Hlen ].
  rewrite !transform_size, !Hsz. fold d. fold aad. rewrite transform_involutive.
  destruct (bytes_eqb (CCM.mac d aad payload) (CCM.mac d aad (flip_bit i bit payload)));
    cbn [try_catch].
  - split; [right; reflexivity|].
    intros H. apply Ret_inj in H. exact (flip_bit_changes Hi Hbit H).
  - split; [left; reflexivity|].
    intros H. apply Ret_inj in H. rewrite <- H in Hi. cbn [length] in Hi. lia.
Qed.

Lemma DecryptDataFrame_flipped_ciphertext_bit_witness :
  NWM.DecryptDataFrame
    (flip_bit 2 3 [xbb; x39; x10; xeb; x98; x21; xda; xe0; x5d; xd5; x16; x80; x52])
    example_key example_sender example_receiver 0x1234 <> Ret example_payload.
Proof.
  apply (@DecryptDataFrame_flipped_ciphertext_bit example_payload
           [xbb; x39; x10; xeb; x98; x21; xda; xe0; x5d; xd5; x16; x80; x52]
           example_key example_sender example_receiver 0x1234 2 3).
  - vm_compute. reflexivity.
  - cbn [length example_payload]. lia.
  - lia.
Defined.

(** C7 (as amended).  On every input shorter than 8 bytes the length
    computation [encrypted_payload.size() - 8] does wrap around, to
    2^64 - 8 + size; that length is beyond what CCM accepts, so
    [SpecifyDataLengths] raises before anything is read from the input: the
    [try] block ends in an exception, not in an access outside the buffer,
    and the function returns the empty vector. *)
Theorem DecryptDataFrame_short_input :
  forall (encrypted_payload ccmp_key : list byte) (sender receiver : MacAddress)
         (sequence_number : Z),
    (length encrypted_payload < 8)%nat ->
    NWM.DecryptDataFrame_message_length encrypted_payload
    = 2 ^ 64 - 8 + size encrypted_payload
    /\ (forall d,
           CCM.SetKeyWithIV ccmp_key (NWM.DecryptDataFrame_nonce sender sequence_number)
           = Ret d ->
           CCM.SpecifyDataLengths d (size (NWM.GenerateCCMPAAD sender receiver))
             (NWM.DecryptDataFrame_message_length encrypted_payload) 0
           = Throw InvalidArgument)
    /\ (exists e,
           NWM.DecryptDataFrame_try encrypted_payload ccmp_key sender receiver
             sequence_number = Throw e)
    /\ NWM.DecryptDataFrame encrypted_payload ccmp_key sender receiver sequence_number
       = Ret [].
Proof.
  intros encrypted_payload ccmp_key sender receiver sequence_number Hshort.
  pose proof (message_length_wraps _ Hshort) as Hwrap.
  assert (Hbig : 65535 < NWM.DecryptDataFrame_message_length encrypted_payload)
    by (rewrite Hwrap; pose proof (size_nonneg encrypted_payload); lia).
  assert (Htry : exists e,
             NWM.DecryptDataFrame_try encrypted_payload ccmp_key sender receiver
               sequence_number = Throw e).
  { destruct (AES.IsValidKeyLength (length ccmp_key)) eqn:Hk.
    - exists InvalidArgument. apply DecryptDataFrame_try_refused; assumption.
    - exists InvalidKeyLength. apply DecryptDataFrame_try_bad_key; assumption. }
  split; [exact Hwrap|]. split; [|split; [exact Htry|]].
  - intros d Hd.
    destruct (AES.IsValidKeyLength (length ccmp_key)) eqn:Hk.
    + rewrite SetKeyWithIV_frame in Hd by exact Hk. apply Ret_inj in Hd. subst d.
      rewrite GenerateCCMPAAD_size. apply SpecifyDataLengths_too_long. exact Hbig.
    + rewrite SetKeyWithIV_bad_key in Hd by exact Hk. discriminate.
  - destruct Htry as [e He]. unfold NWM.DecryptDataFrame. rewrite He. reflexivity.
Qed.

Lemma DecryptDataFrame_short_input_witness :
  NWM.DecryptDataFrame_message_length [x01; x02; x03] = 2 ^ 64 - 8 + 3
  /\ NWM.DecryptDataFrame [x01; x02; x03] example_key example_sender example_receiver 7
     = Ret [].
Proof.
  destruct (@DecryptDataFrame_short_input [x01; x02; x03] example_key example_sender
              example_receiver 7) as (Hwrap & _ & _ & Hempty).
  - cbn [length]. lia.
  - split; [exact Hwrap|exact Hempty].
Defined.

(** C7, as stated, fails: on a 3-byte input the difference is negative and
    the length the code computes is 2^64 - 5. *)
Lemma message_length_underflows :
  size [x01; x02; x03] - 8 < 0
  /\ NWM.DecryptDataFrame_message_length [x01; x02; x03] = 18446744073709551611.
Proof. split; reflexivity. Qed.

(** C8.  Whenever a Crypto++ call raises inside [EncryptDataFrame] or
    [DecryptDataFrame], whichever exception it is, the function returns the
    empty vector, the same on both paths; and the functions always return a
    vector: no exception leaves them and no error code exists. *)
Theorem crypto_failure_returns_empty :
  forall (data ccmp_key : list byte) (sender receiver : MacAddress) (sequence_number : Z),
    (forall e,
        NWM.EncryptDataFrame_try data ccmp_key sender receiver sequence_number = Throw e ->
        NWM.EncryptDataFrame data ccmp_key sender receiver sequence_number = Ret [])
    /\ (forall e,
           NWM.DecryptDataFrame_try data ccmp_key sender receiver sequence_number
           = Throw e ->
           NWM.DecryptDataFrame data ccmp_key sender receiver sequence_number = Ret [])
    /\ (exists result,
           NWM.EncryptDataFrame data ccmp_key sender receiver sequence_number = Ret result)
    /\ (exists result,
           NWM.DecryptDataFrame data ccmp_key sender receiver sequence_number = Ret result).
Proof.
  intros data ccmp_key sender receiver sequence_number.
  split; [|split; [|split]].
  - intros e He. unfold NWM.EncryptDataFrame. rewrite He. reflexivity.
  - intros e He. unfold NWM.DecryptDataFrame. rewrite He. reflexivity.
  - pose proof (@EncryptDataFrame_try_no_fault ccmp_key sender receiver sequence_number data)
      as Hnf.
    unfold NWM.EncryptDataFrame.
    destruct (NWM.EncryptDataFrame_try data ccmp_key sender receiver sequence_number)
      as [v|e|]; [exists v|exists []|contradiction]; reflexivity.
  - pose proof (@DecryptDataFrame_try_no_fault ccmp_key sender receiver sequence_number data)
      as Hnf.
    unfold NWM.DecryptDataFrame.
    destruct (NWM.DecryptDataFrame_try data ccmp_key sender receiver sequence_number)
      as [v|e|]; [exists v|exists []|contradiction]; reflexivity.
Qed.

Lemma crypto_failure_returns_empty_witness :
  NWM.EncryptDataFrame (repeat x00 (Z.to_nat 65536)) example_key example_sender
    example_receiver 1 = Ret []
  /\ NWM.DecryptDataFrame [x68; x69] example_key example_sender example_receiver 1 = Ret [].
Proof.
  split.
  - apply (proj1 (crypto_failure_returns_empty (repeat x00 (Z.to_nat 65536)) example_key
                    example_sender example_receiver 1) InvalidArgument).
    apply EncryptDataFrame_try_refused; [reflexivity|].
    unfold size. rewrite repeat_length. lia.
  - apply (proj1 (proj2 (crypto_failure_returns_empty [x68; x69] example_key
                           example_sender example_receiver 1)) InvalidArgument).
    vm_compute. reflexivity.
Defined.

(** C10.  For the empty plaintext and every 16-byte key, addresses and
    sequence number, encryption succeeds and returns eight bytes, the tag
    alone; decrypting them succeeds and returns the empty vector, which is
    also what the failed decryption of the empty vector returns: the result
    of the successful call and of the failed one are the same. *)
Theorem empty_payload_indistinguishable :
  forall (ccmp_key : list byte) (sender receiver : MacAddress) (sequence_number : Z),
    length ccmp_key = 16%nat ->
    exists tag,
      NWM.EncryptDataFrame_try [] ccmp_key sender receiver sequence_number = Ret tag
      /\ NWM.EncryptDataFrame [] ccmp_key sender receiver sequence_number = Ret tag
      /\ length tag = 8%nat
      /\ tag <> []
      /\ NWM.DecryptDataFrame_try tag ccmp_key sender receiver sequence_number = Ret []
      /\ NWM.DecryptDataFrame tag ccmp_key sender receiver sequence_number = Ret []
      /\ (exists e,
             NWM.DecryptDataFrame_try [] ccmp_key sender receiver sequence_number
             = Throw e)
      /\ NWM.DecryptDataFrame [] ccmp_key sender receiver sequence_number
         = NWM.DecryptDataFrame tag ccmp_key sender receiver sequence_number.
Proof.
  intros ccmp_key sender receiver sequence_number Hkey.
  apply valid_key_16 in Hkey.
  set (d := frame_cipher ccmp_key sender sequence_number (size [])).
  set (tag := CCM.mac d (NWM.GenerateCCMPAAD sender receiver) []).
  assert (Henc : NWM.EncryptDataFrame_try [] ccmp_key sender receiver sequence_number
                 = Ret tag).
  { rewrite EncryptDataFrame_try_ok; [reflexivity|exact Hkey|]. unfold size. cbn [length]. lia. }
  assert (Hdec : NWM.DecryptDataFrame_try tag ccmp_key sender receiver sequence_number
                 = Ret []).
  { change tag with ([] ++ tag).
    rewrite DecryptDataFrame_try_frame;
      [ | exact Hkey | apply mac_length | unfold size; cbn [length]; lia ].
    fold d. change (CCM.transform d []) with (@nil byte). fold tag.
    rewrite bytes_eqb_refl. reflexivity. }
  assert (Hfail : NWM.DecryptDataFrame_try [] ccmp_key sender receiver sequence_number
                  = Throw InvalidArgument).
  { apply DecryptDataFrame_try_refused; [exact Hkey|].
    rewrite message_length_wraps by (cbn [length]; lia). unfold size. cbn [length]. lia. }
  exists tag.
  split; [|split; [|split; [|split; [|split; [|split; [|split]]]]]].
  - exact Henc.
  - unfold NWM.EncryptDataFrame. rewrite Henc. reflexivity.
  - apply mac_length.
  - intros H. apply (f_equal (@length byte)) in H. unfold tag in H.
    rewrite mac_length in H. discriminate.
  - exact Hdec.
  - unfold NWM.DecryptDataFrame. rewrite Hdec. reflexivity.
  - exists InvalidArgument. exact Hfail.
  - unfold NWM.DecryptDataFrame. rewrite Hdec, Hfail. reflexivity.
Qed.

Lemma empty_payload_indistinguishable_witness :
  exists tag,
    NWM.EncryptDataFrame [] example_key example_sender example_receiver 0x1234 = Ret tag
    /\ length tag = 8%nat
    /\ NWM.DecryptDataFrame tag example_key example_sender example_receiver 0x1234 = Ret []
    /\ NWM.DecryptDataFrame [] example_key example_sender example_receiver 0x1234 = Ret [].
Proof.
  destruct (@empty_payload_indistinguishable example_key example_sender example_receiver
              0x1234 eq_refl) as (tag & _ & Henc & Hlen & _ & _ & Hdec & _ & Hsame).
  exists tag.
  split; [exact Henc|]. split; [exact Hlen|]. split; [exact Hdec|].
  rewrite Hsame. exact Hdec.
Defined.

(** C4.  For every sender and receiver address the AAD is exactly 22 bytes:
    the frame control 0x0841 most significant byte first, the receiver, the
    transmitter (the sender), the destination (the receiver again), and a
    zero sequence control. *)
Theorem GenerateCCMPAAD_layout :
  forall sender receiver : MacAddress,
    NWM.GenerateCCMPAAD sender receiver
    = be_bytes 2 0x0841 ++ mac_bytes receiver ++ mac_bytes sender ++ mac_bytes receiver
      ++ be_bytes 2 0
    /\ be_bytes 2 0x0841 = [x08; x41]
    /\ be_bytes 2 0 = [x00; x00]
    /\ length (mac_bytes sender) = 6%nat
    /\ length (NWM.GenerateCCMPAAD sender receiver) = 22%nat.
Proof.
  intros sender receiver.
  split; [|split; [|split; [|split]]]; reflexivity.
Qed.

(** C5.  For every sender address and 16-bit sequence number, the nonce of
    [EncryptDataFrame] is 13 bytes: a zero priority byte, the six bytes of
    the sender, and a six-byte packet number made of four zero bytes and the
    sequence number most significant byte first, so that the packet number
    read as a big-endian integer is the sequence number; [DecryptDataFrame]
    builds the same bytes. *)
Theorem nonce_layout :
  forall (sender : MacAddress) (sequence_number : Z),
    0 <= sequence_number < 65536 ->
    NWM.EncryptDataFrame_nonce sender sequence_number
    = [x00] ++ mac_bytes sender ++ [x00; x00; x00; x00] ++ be_bytes 2 sequence_number
    /\ length (NWM.EncryptDataFrame_nonce sender sequence_number) = 13%nat
    /\ be_value (skipn 7 (NWM.EncryptDataFrame_nonce sender sequence_number))
       = sequence_number
    /\ NWM.DecryptDataFrame_nonce sender sequence_number
       = NWM.EncryptDataFrame_nonce sender sequence_number.
Proof.
  intros sender sequence_number Hrange.
  assert (Hlayout : NWM.EncryptDataFrame_nonce sender sequence_number
                    = [x00] ++ mac_bytes sender ++ [x00; x00; x00; x00]
                      ++ be_bytes 2 sequence_number).
  { unfold NWM.EncryptDataFrame_nonce. rewrite !u8_land_FF. reflexivity. }
  split; [exact Hlayout|]. split; [reflexivity|]. split; [|reflexivity].
  rewrite Hlayout.
  change (skipn 7 ([x00] ++ mac_bytes sender ++ [x00; x00; x00; x00]
                   ++ be_bytes 2 sequence_number))
    with ([x00; x00; x00; x00] ++ be_bytes 2 sequence_number).
  rewrite be_bytes_2. unfold be_value. cbn [app fold_left].
  rewrite !u8_to_Z_u8. change (u8_to_Z x00) with 0.
  rewrite Z.shiftr_div_pow2 by lia. change (2 ^ 8) with 256.
  rewrite (Z.mod_small (sequence_number / 256))
    by (split; [apply Z.div_pos; lia|apply Z.div_lt_upper_bound; lia]).
  pose proof (Z.div_mod sequence_number 256). lia.
Qed.

Lemma nonce_layout_witness :
  NWM.EncryptDataFrame_nonce example_sender 0x1234
  = [x00; x00; x11; x22; x33; x44; x55; x00; x00; x00; x00; x12; x34]
  /\ NWM.DecryptDataFrame_nonce example_sender 0x1234
     = NWM.EncryptDataFrame_nonce example_sender 0x1234.
Proof.
  destruct (@nonce_layout example_sender 0x1234) as (Hlayout & _ & _ & Hsame).
  - lia.
  - split; [rewrite Hlayout; reflexivity|exact Hsame].
Defined.

Section SecureData.

Context {SecureDataHeader_layout : Layout SecureDataHeader.t}.

(** C6 (as amended).  For every payload length L such that L plus the size
    of the header fits the 16-bit size field, any channel, node ids and
    sequence number, the header has protocol_size = L + header size,
    securedata_size = protocol_size - 4 and is_management = 0, the other
    members are the arguments, and the bytes returned are the object
    representation of that header, sizeof(SecureDataHeader) bytes long
    (the structure has at least the four bytes that securedata_size leaves
    out). *)
Theorem GenerateSecureDataHeader_sizes :
  forall data_size channel dest_node_id src_node_id sequence_number : Z,
    0 <= data_size ->
    data_size + Z.of_nat (sizeof SecureDataHeader.t) <= 65535 ->
    4 <= Z.of_nat (sizeof SecureDataHeader.t) ->
    let header :=
      NWM.GenerateSecureDataHeader_header data_size channel dest_node_id src_node_id
        sequence_number in
    SecureDataHeader.protocol_size header
    = data_size + Z.of_nat (sizeof SecureDataHeader.t)
    /\ SecureDataHeader.securedata_size header = SecureDataHeader.protocol_size header - 4
    /\ SecureDataHeader.is_management header = 0
    /\ SecureDataHeader.data_channel header = channel
    /\ SecureDataHeader.sequence_number header = sequence_number
    /\ SecureDataHeader.dest_node_id header = dest_node_id
    /\ SecureDataHeader.src_node_id header = src_node_id
    /\ NWM.GenerateSecureDataHeader data_size channel dest_node_id src_node_id
         sequence_number = memcpy_object header
    /\ length (NWM.GenerateSecureDataHeader data_size channel dest_node_id src_node_id
                 sequence_number) = sizeof SecureDataHeader.t.
Proof.
  intros data_size channel dest_node_id src_node_id sequence_number Hpos Hfit Hfour header.
  assert (Hp : SecureDataHeader.protocol_size header
               = data_size + Z.of_nat (sizeof SecureDataHeader.t)).
  { unfold header, NWM.GenerateSecureDataHeader_header.
    cbn [SecureDataHeader.protocol_size]. unfold u16, size_add, size_t.
    rewrite (Z.mod_small (data_size + Z.of_nat (sizeof SecureDataHeader.t)) (2 ^ 64)) by lia.
    apply Z.mod_small. lia. }
  split; [exact Hp|]. split.
  { rewrite Hp. unfold header, NWM.GenerateSecureDataHeader_header.
    cbn [SecureDataHeader.securedata_size]. unfold u16, size_sub, size_add, size_t.
    rewrite (Z.mod_small (data_size + Z.of_nat (sizeof SecureDataHeader.t)) (2 ^ 64)) by lia.
    rewrite (Z.mod_small (data_size + Z.of_nat (sizeof SecureDataHeader.t) - 4) (2 ^ 64))
      by lia.
    apply Z.mod_small. lia. }
  repeat (split; [reflexivity|]).
  unfold NWM.GenerateSecureDataHeader, memcpy_object. apply resize_length.
Qed.

End SecureData.

Lemma GenerateSecureDataHeader_sizes_witness :
  SecureDataHeader.protocol_size
    (NWM.GenerateSecureDataHeader_header (SecureDataHeader_layout := SecureDataHeader_spec_layout)
       100 1 2 3 4) = 112
  /\ SecureDataHeader.securedata_size
       (NWM.GenerateSecureDataHeader_header
          (SecureDataHeader_layout := SecureDataHeader_spec_layout) 100 1 2 3 4) = 108.
Proof.
  destruct (@GenerateSecureDataHeader_sizes SecureDataHeader_spec_layout 100 1 2 3 4)
    as (Hp & Hs & _).
  - lia.
  - cbn [sizeof SecureDataHeader_spec_layout]. lia.
  - cbn [sizeof SecureDataHeader_spec_layout]. lia.
  - split; [exact Hp|]. rewrite Hs, Hp. reflexivity.
Defined.

(** C6, as stated, fails at the largest 16-bit payload length: with the
    12-byte header of the specification the sum no longer fits the 16-bit
    member, and protocol_size is 11, not 65535 + 12. *)
Lemma protocol_size_wraps :
  SecureDataHeader.protocol_size
    (NWM.GenerateSecureDataHeader_header (SecureDataHeader_layout := SecureDataHeader_spec_layout)
       65535 0 0 0 0) = 11
  /\ SecureDataHeader.protocol_size
       (NWM.GenerateSecureDataHeader_header
          (SecureDataHeader_layout := SecureDataHeader_spec_layout) 65535 0 0 0 0)
     <> 65535 + Z.of_nat (sizeof SecureDataHeader.t (Layout := SecureDataHeader_spec_layout)).
Proof. split; [reflexivity|]. vm_compute. discriminate. Qed.

(** The header when nothing wraps around. *)
Lemma GenerateSecureDataHeader_header_fits {L : Layout SecureDataHeader.t}
    (data_size channel dest_node_id src_node_id sequence_number : Z) :
  0 <= data_size ->
  data_size + Z.of_nat (sizeof SecureDataHeader.t) <= 65535 ->
  4 <= Z.of_nat (sizeof SecureDataHeader.t) ->
  NWM.GenerateSecureDataHeader_header data_size channel dest_node_id src_node_id
    sequence_number
  = {| SecureDataHeader.protocol_size := data_size + Z.of_nat (sizeof SecureDataHeader.t);
       SecureDataHeader.securedata_size :=
         data_size + Z.of_nat (sizeof SecureDataHeader.t) - 4;
       SecureDataHeader.is_management := 0;
       SecureDataHeader.data_channel := channel;
       SecureDataHeader.sequence_number := sequence_number;
       SecureDataHeader.dest_node_id := dest_node_id;
       SecureDataHeader.src_node_id := src_node_id |}.
Proof.
  intros Hpos Hfit Hfour. unfold NWM.GenerateSecureDataHeader_header.
  unfold u16, size_sub, size_add, size_t.
  rewrite (Z.mod_small (data_size + Z.of_nat (sizeof SecureDataHeader.t)) (2 ^ 64)) by lia.
  rewrite (Z.mod_small (data_size + Z.of_nat (sizeof SecureDataHeader.t) - 4) (2 ^ 64))
    by lia.
  rewrite !Z.mod_small by lia. reflexivity.
Qed.

(** The two headers at the front of the frame. *)
Lemma GenerateDataPayload_headers {LLC : Layout LLCHeader.t} {SDH : Layout SecureDataHeader.t}
    (SecureData : Z) (data : list byte) (channel dest_node src_node sequence_number : Z) :
  firstn (sizeof LLCHeader.t + sizeof SecureDataHeader.t)
    (NWM.GenerateDataPayload SecureData data channel dest_node src_node sequence_number)
  = NWM.GenerateLLCHeader SecureData
    ++ NWM.GenerateSecureDataHeader (u16 (size data)) channel dest_node src_node
         sequence_number.
Proof.
  unfold NWM.GenerateDataPayload.
  set (llc := NWM.GenerateLLCHeader SecureData).
  set (sdh := NWM.GenerateSecureDataHeader (u16 (size data)) channel dest_node src_node
                sequence_number).
  assert (Hl : length (llc ++ sdh)
               = (sizeof LLCHeader.t + sizeof SecureDataHeader.t)%nat).
  { rewrite length_app. unfold llc, sdh, NWM.GenerateLLCHeader, NWM.GenerateSecureDataHeader,
      memcpy_object. rewrite !resize_length. reflexivity. }
  rewrite <- Hl.
  rewrite (firstn_app (length (llc ++ sdh)) (llc ++ sdh)), Nat.sub_diag, firstn_O, firstn_all.
  apply app_nil_r.
Qed.

(** C9 (as amended).  For every payload whose length plus the size of the
    secure-data header fits the 16-bit size field, and every channel, node
    ids and sequence number, [GenerateDataPayload] returns, in this order,
    the link-encapsulation header, the secure-data header for the length of
    the payload (protocol_size is that length plus the size of the header,
    securedata_size four less, is_management 0, the other members the
    arguments), and the payload unchanged; with the layout the
    specification gives the link-encapsulation header, that header is two
    bytes, the protocol identifier most significant byte first. *)
Theorem GenerateDataPayload_layout :
  forall (SecureDataHeader_layout : Layout SecureDataHeader.t)
         (SecureData : Z) (data : list byte)
         (channel dest_node src_node sequence_number : Z),
    size data + Z.of_nat (sizeof SecureDataHeader.t) <= 65535 ->
    4 <= Z.of_nat (sizeof SecureDataHeader.t) ->
    let header :=
      {| SecureDataHeader.protocol_size :=
           size data + Z.of_nat (sizeof SecureDataHeader.t);
         SecureDataHeader.securedata_size :=
           size data + Z.of_nat (sizeof SecureDataHeader.t) - 4;
         SecureDataHeader.is_management := 0;
         SecureDataHeader.data_channel := channel;
         SecureDataHeader.sequence_number := sequence_number;
         SecureDataHeader.dest_node_id := dest_node;
         SecureDataHeader.src_node_id := src_node |} in
    (forall LLCHeader_layout : Layout LLCHeader.t,
        NWM.GenerateDataPayload SecureData data channel dest_node src_node sequence_number
        = NWM.GenerateLLCHeader SecureData ++ memcpy_object header ++ data)
    /\ NWM.GenerateDataPayload (LLCHeader_layout := LLCHeader_spec_layout)
         SecureData data channel dest_node src_node sequence_number
       = be_bytes 2 SecureData ++ memcpy_object header ++ data
    /\ length (be_bytes 2 SecureData) = 2%nat
    /\ (0 <= SecureData < 65536 -> be_value (be_bytes 2 SecureData) = SecureData)
    /\ memcpy_object header
       = NWM.GenerateSecureDataHeader (size data) channel dest_node src_node
           sequence_number
    /\ length (memcpy_object header) = sizeof SecureDataHeader.t.
Proof.
  intros L SecureData data channel dest_node src_node sequence_number Hfit Hfour header.
  pose proof (size_nonneg data) as Hpos.
  assert (Hu : u16 (size data) = size data) by (unfold u16; apply Z.mod_small; lia).
  assert (Hh : NWM.GenerateSecureDataHeader_header (size data) channel dest_node src_node
                 sequence_number = header)
    by (apply GenerateSecureDataHeader_header_fits; assumption).
  assert (Hgen : forall LLC : Layout LLCHeader.t,
             NWM.GenerateDataPayload SecureData data channel dest_node src_node
               sequence_number
             = NWM.GenerateLLCHeader SecureData ++ memcpy_object header ++ data).
  { intros LLC. unfold NWM.GenerateDataPayload, NWM.GenerateSecureDataHeader.
    rewrite Hu, Hh, <- app_assoc. reflexivity. }
  split; [exact Hgen|]. split; [|split; [reflexivity|split; [|split]]].
  - rewrite (Hgen LLCHeader_spec_layout). f_equal.
    unfold NWM.GenerateLLCHeader, memcpy_object.
    cbn [sizeof object_bytes LLCHeader_spec_layout LLCHeader.protocol].
    rewrite be_bytes_u16. reflexivity.
  - intros Hp. rewrite be_bytes_2. unfold be_value. cbn [fold_left].
    rewrite !u8_to_Z_u8. rewrite Z.shiftr_div_pow2 by lia. change (2 ^ 8) with 256.
    rewrite (Z.mod_small (SecureData / 256))
      by (split; [apply Z.div_pos; lia|apply Z.div_lt_upper_bound; lia]).
    pose proof (Z.div_mod SecureData 256). lia.
  - unfold NWM.GenerateSecureDataHeader. rewrite Hh. reflexivity.
  - unfold memcpy_object. apply resize_length.
Qed.

Lemma GenerateDataPayload_layout_witness :
  NWM.GenerateDataPayload (LLCHeader_layout := LLCHeader_spec_layout)
    (SecureDataHeader_layout := SecureDataHeader_spec_layout)
    0x876D example_payload 1 2 3 4
  = [x87; x6d] ++ [x11; x00; x0d; x00; x00; x01; x04; x00; x02; x00; x03; x00]
    ++ example_payload
  /\ be_value (be_bytes 2 0x876D) = 0x876D.
Proof.
  destruct (@GenerateDataPayload_layout SecureDataHeader_spec_layout 0x876D example_payload
              1 2 3 4) as (_ & Hpayload & _ & Hvalue & _).
  - vm_compute. discriminate.
  - vm_compute. discriminate.
  - split.
    + rewrite Hpayload. vm_compute. reflexivity.
    + apply Hvalue. lia.
Defined.

(** C9, as stated, fails on payloads that do not fit the 16-bit size field:
    the frame of a payload of 65536 bytes starts with the very headers of
    the frame of the empty payload, and the header made for a payload of
    65530 bytes has protocol_size 6, not 65530 + 12. *)
Lemma GenerateDataPayload_header_not_sized :
  firstn (2 + 12)
    (NWM.GenerateDataPayload (LLCHeader_layout := LLCHeader_spec_layout)
       (SecureDataHeader_layout := SecureDataHeader_spec_layout)
       0x876D (repeat x00 (Z.to_nat 65536)) 1 2 3 4)
  = firstn (2 + 12)
      (NWM.GenerateDataPayload (LLCHeader_layout := LLCHeader_spec_layout)
         (SecureDataHeader_layout := SecureDataHeader_spec_layout) 0x876D [] 1 2 3 4)
  /\ SecureDataHeader.protocol_size
       (NWM.GenerateSecureDataHeader_header
          (SecureDataHeader_layout := SecureDataHeader_spec_layout)
          (u16 (size (repeat x00 (Z.to_nat 65530)))) 1 2 3 4) = 6.
Proof.
  split.
  - change (2 + 12)%nat
      with (sizeof LLCHeader.t (Layout := LLCHeader_spec_layout)
            + sizeof SecureDataHeader.t (Layout := SecureDataHeader_spec_layout))%nat.
    rewrite !GenerateDataPayload_headers.
    replace (size (repeat x00 (Z.to_nat 65536))) with 65536
      by (unfold size; rewrite repeat_length; lia).
    reflexivity.
  - replace (size (repeat x00 (Z.to_nat 65530))) with 65530
      by (unfold size; rewrite repeat_length; lia).
    reflexivity.
Qed.

Section KeyDerivationLemmas.

Context {DataFrameCryptoCTR_layout : Layout DataFrameCryptoCTR.t}.
Variable GetNormalKey : Z -> list byte.

(** The derived key, whatever the layout of [DataFrameCryptoCTR]. *)
Lemma GenerateDataCCMPKey_is_CTR (passphrase : list byte) (network_info : NetworkInfo.t) :
  NWM.GenerateDataCCMPKey GetNormalKey passphrase network_info
  = xor_bytes (MD5.CalculateDigest passphrase)
      (AES.ProcessBlock (resize 16 (GetNormalKey 0x2D))
         (MD5.CalculateDigest (NWM.GetDataCryptoCTR_input network_info))).
Proof.
  unfold NWM.GenerateDataCCMPKey, NWM.GetDataCryptoCTR.
  rewrite ProcessData_first_block by (rewrite CalculateDigest_length; lia).
  reflexivity.
Qed.

End KeyDerivationLemmas.

(** X16.  For every passphrase, NetworkInfo, key store and layout of
    [DataFrameCryptoCTR], the key [GenerateDataCCMPKey] returns is
    MD5(passphrase) xor the AES encryption, under the first 16 bytes of the
    key of key slot 0x2D, of the MD5 digest of the [sizeof] raw bytes of a
    [DataFrameCryptoCTR] holding the host MAC, the wireless-community id,
    the network instance id and the network id of the NetworkInfo. *)
Theorem GenerateDataCCMPKey_derivation :
  forall (L : Layout DataFrameCryptoCTR.t) (GetNormalKey : Z -> list byte)
         (passphrase : list byte) (network_info : NetworkInfo.t),
    NWM.GenerateDataCCMPKey GetNormalKey passphrase network_info
    = xor_bytes (MD5.CalculateDigest passphrase)
        (AES.ProcessBlock (resize 16 (GetNormalKey 0x2D))
           (MD5.CalculateDigest
              (memcpy_object
                 {| DataFrameCryptoCTR.host_mac :=
                      NetworkInfo.host_mac_address network_info;
                    DataFrameCryptoCTR.wlan_comm_id := NetworkInfo.wlan_comm_id network_info;
                    DataFrameCryptoCTR.id := NetworkInfo.id network_info;
                    DataFrameCryptoCTR.network_id :=
                      NetworkInfo.network_id network_info |}))).
Proof.
  intros L GetNormalKey passphrase network_info.
  apply GenerateDataCCMPKey_is_CTR.
Qed.

End Claims.


(* ================================================================== *)
(** * Further lemmas on the frames, the headers and the key *)
(* ================================================================== *)

Section FurtherLemmas.

Open Scope Z_scope.

Lemma byte_xor_same_key (a b k : byte) :
  byte_xor (byte_xor a k) (byte_xor b k) = byte_xor a b.
Proof.
  rewrite byte_xor_assoc, (byte_xor_comm k (byte_xor b k)), byte_xor_involutive.
  reflexivity.
Qed.

(** Two inputs encrypted at the same position of the same key stream: the
    key stream cancels. *)
Lemma xor_ProcessData (key iv : list byte) (a : list byte) :
  forall b pos,
    xor_bytes (CTR_Mode.ProcessData key iv pos a) (CTR_Mode.ProcessData key iv pos b)
    = xor_bytes a b.
Proof.
  induction a as [|x a IH]; intros [|y b] pos; simpl; try reflexivity.
  rewrite byte_xor_same_key, IH. reflexivity.
Qed.

Lemma mac_bytes_inj (a b : MacAddress) : mac_bytes a = mac_bytes b -> a = b.
Proof.
  destruct a, b. unfold mac_bytes. cbn. intros H. injection H as -> -> -> -> -> ->.
  reflexivity.
Qed.

Lemma GenerateCCMPAAD_bytes (sender receiver : MacAddress) :
  NWM.GenerateCCMPAAD sender receiver
  = [x08; x41] ++ mac_bytes receiver ++ mac_bytes sender ++ mac_bytes receiver
    ++ [x00; x00].
Proof. reflexivity. Qed.

Lemma be_value_be_bytes_2 (z : Z) : 0 <= z < 65536 -> be_value (be_bytes 2 z) = z.
Proof.
  intros Hz. rewrite be_bytes_2. unfold be_value. cbn [fold_left].
  rewrite !u8_to_Z_u8. rewrite Z.shiftr_div_pow2 by lia. change (2 ^ 8) with 256.
  rewrite (Z.mod_small (z / 256))
    by (split; [apply Z.div_pos; lia|apply Z.div_lt_upper_bound; lia]).
  pose proof (Z.div_mod z 256). lia.
Qed.

Lemma nonce_bytes (sender : MacAddress) (sequence_number : Z) :
  NWM.EncryptDataFrame_nonce sender sequence_number
  = [x00] ++ mac_bytes sender ++ [x00; x00; x00; x00] ++ be_bytes 2 sequence_number.
Proof. unfold NWM.EncryptDataFrame_nonce. rewrite !u8_land_FF. reflexivity. Qed.

Lemma u16_size_t (z : Z) : u16 (size_t z) = u16 z.
Proof.
  unfold u16, size_t. change (2 ^ 64) with (65536 * 2 ^ 48).
  rewrite Z.rem_mul_r by lia.
  rewrite Z.mul_comm, Z.mod_add by lia. apply Z.mod_mod. lia.
Qed.

Lemma GenerateLLCHeader_length {L : Layout LLCHeader.t} (protocol : Z) :
  length (NWM.GenerateLLCHeader protocol) = sizeof LLCHeader.t.
Proof. unfold NWM.GenerateLLCHeader, memcpy_object. apply resize_length. Qed.

Lemma GenerateSecureDataHeader_length {L : Layout SecureDataHeader.t}
    (data_size channel dest_node_id src_node_id sequence_number : Z) :
  length (NWM.GenerateSecureDataHeader data_size channel dest_node_id src_node_id
            sequence_number) = sizeof SecureDataHeader.t.
Proof. unfold NWM.GenerateSecureDataHeader, memcpy_object. apply resize_length. Qed.

Lemma GenerateDataCCMPKey_length {L : Layout DataFrameCryptoCTR.t}
    (GetNormalKey : Z -> list byte) (passphrase : list byte) (network_info : NetworkInfo.t) :
  length (NWM.GenerateDataCCMPKey GetNormalKey passphrase network_info) = 16%nat.
Proof.
  unfold NWM.GenerateDataCCMPKey. rewrite ProcessData_length. apply CalculateDigest_length.
Qed.

(** Every way the [try] block of [DecryptDataFrame] can end, on a frame a
    vector can hold. *)
Lemma DecryptDataFrame_try_cases (encrypted_payload ccmp_key : list byte)
    (sender receiver : MacAddress) (sequence_number : Z) :
  size encrypted_payload <= SIZE_MAX ->
  (exists e,
      NWM.DecryptDataFrame_try encrypted_payload ccmp_key sender receiver sequence_number
      = Throw e)
  \/ (AES.IsValidKeyLength (length ccmp_key) = true
      /\ (8 <= length encrypted_payload)%nat
      /\ size encrypted_payload <= 65535 + 8
      /\ tag_verifies encrypted_payload ccmp_key sender receiver sequence_number = true
      /\ NWM.DecryptDataFrame_try encrypted_payload ccmp_key sender receiver sequence_number
         = Ret (CCM.transform
                  (frame_cipher ccmp_key sender sequence_number
                     (Z.of_nat (length encrypted_payload - 8)))
                  (firstn (length encrypted_payload - 8) encrypted_payload))).
Proof.
  intros Hmax.
  destruct (AES.IsValidKeyLength (length ccmp_key)) eqn:Hk.
  - destruct (Z.le_gt_cases (NWM.DecryptDataFrame_message_length encrypted_payload) 65535)
      as [Hle|Hgt].
    + destruct (message_length_accepted _ Hle) as [H8 _].
      pose proof (message_length_exact _ H8 Hmax) as Hex.
      assert (Hsz : size encrypted_payload <= 65535 + 8) by (unfold size; lia).
      pose proof (@DecryptDataFrame_try_verifies ccmp_key sender receiver sequence_number
                    encrypted_payload Hk H8 Hsz) as Htry.
      destruct (tag_verifies encrypted_payload ccmp_key sender receiver sequence_number).
      * right. auto.
      * left. exists HashVerificationFailed. exact Htry.
    + left. exists InvalidArgument. apply DecryptDataFrame_try_refused; assumption.
  - left. exists InvalidKeyLength. apply DecryptDataFrame_try_bad_key; assumption.
Qed.

End FurtherLemmas.


(* ================================================================== *)
(** * Further properties of the code *)
(* ================================================================== *)

Section FurtherProperties.

Open Scope Z_scope.

Lemma app_inv_same_length (a a' b b' : list byte) :
  length a = length a' -> a ++ b = a' ++ b' -> a = a' /\ b = b'.
Proof.
  revert a'. induction a as [|x a IH]; intros [|y a'] Hl H; simpl in *; try lia.
  - auto.
  - injection H as -> H. destruct (IH a' ltac:(lia) H) as [-> ->]. auto.
Qed.

(** X1.  With a 16-byte key, [EncryptDataFrame] returns eight bytes more
    than the payload when the payload has at most 65535 bytes, and the
    empty vector otherwise; so on this path the empty result means failure
    and nothing else. *)
Theorem EncryptDataFrame_result :
  forall (payload ccmp_key : list byte) (sender receiver : MacAddress)
         (sequence_number : Z),
    length ccmp_key = 16%nat ->
    (size payload <= 65535 ->
     exists encrypted,
       NWM.EncryptDataFrame payload ccmp_key sender receiver sequence_number
       = Ret encrypted
       /\ length encrypted = (length payload + 8)%nat)
    /\ (65535 < size payload ->
        NWM.EncryptDataFrame payload ccmp_key sender receiver sequence_number = Ret [])
    /\ (NWM.EncryptDataFrame payload ccmp_key sender receiver sequence_number = Ret []
        <-> 65535 < size payload).
Proof.
  intros payload ccmp_key sender receiver sequence_number Hkey.
  apply valid_key_16 in Hkey.
  assert (Hok : size payload <= 65535 ->
                exists encrypted,
                  NWM.EncryptDataFrame payload ccmp_key sender receiver sequence_number
                  = Ret encrypted
                  /\ length encrypted = (length payload + 8)%nat).
  { intros Hlen. eexists. split.
    - unfold NWM.EncryptDataFrame. apply try_catch_Ret.
      apply EncryptDataFrame_try_ok; assumption.
    - rewrite length_app, transform_length, mac_length. reflexivity. }
  assert (Hfail : 65535 < size payload ->
                  NWM.EncryptDataFrame payload ccmp_key sender receiver sequence_number
                  = Ret []).
  { intros Hlen. unfold NWM.EncryptDataFrame.
    rewrite EncryptDataFrame_try_refused by assumption. reflexivity. }
  split; [exact Hok|]. split; [exact Hfail|]. split; [|exact Hfail].
  intros Hempty. destruct (Z.le_gt_cases (size payload) 65535) as [Hle|Hgt]; [|lia].
  destruct (Hok Hle) as (encrypted & Henc & Hl).
  rewrite Henc in Hempty. apply Ret_inj in Hempty. subst encrypted.
  cbn [length] in Hl. lia.
Qed.

Lemma EncryptDataFrame_result_witness :
  (exists encrypted,
      NWM.EncryptDataFrame example_payload example_key example_sender example_receiver 5
      = Ret encrypted /\ length encrypted = 13%nat)
  /\ NWM.EncryptDataFrame (repeat x00 (Z.to_nat 65536)) example_key example_sender
       example_receiver 5 = Ret [].
Proof.
  split.
  - apply (proj1 (@EncryptDataFrame_result example_payload example_key example_sender
                    example_receiver 5 eq_refl)).
    vm_compute. discriminate.
  - apply (proj1 (proj2 (@EncryptDataFrame_result (repeat x00 (Z.to_nat 65536)) example_key
                           example_sender example_receiver 5 eq_refl))).
    unfold size. rewrite repeat_length. lia.
Defined.

(** X2.  Whatever [DecryptDataFrame] returns other than the empty vector,
    it is a plaintext whose encryption with the same key, addresses and
    sequence number is exactly the input frame. *)
Theorem DecryptDataFrame_accepts_only_encryptions :
  forall (encrypted_payload payload ccmp_key : list byte)
         (sender receiver : MacAddress) (sequence_number : Z),
    size encrypted_payload <= SIZE_MAX ->
    NWM.DecryptDataFrame encrypted_payload ccmp_key sender receiver sequence_number
    = Ret payload ->
    payload <> [] ->
    NWM.EncryptDataFrame payload ccmp_key sender receiver sequence_number
    = Ret encrypted_payload.
Proof.
  intros frame payload ccmp_key sender receiver sequence_number Hmax Hdec Hne.
  unfold NWM.DecryptDataFrame in Hdec.
  destruct (DecryptDataFrame_try_cases frame ccmp_key sender receiver sequence_number Hmax)
    as [[e He]|(Hk & H8 & Hsz & Hv & Htry)].
  - rewrite He in Hdec. cbn [try_catch] in Hdec. apply Ret_inj in Hdec.
    symmetry in Hdec. contradiction.
  - rewrite Htry in Hdec. cbn [try_catch] in Hdec. apply Ret_inj in Hdec.
    set (n := (length frame - 8)%nat) in *.
    set (d := frame_cipher ccmp_key sender sequence_number (Z.of_nat n)) in *.
    unfold tag_verifies in Hv. fold n in Hv. fold d in Hv.
    apply andb_true_iff in Hv as [_ Hv]. unfold CCM.verifies in Hv.
    apply bytes_eqb_eq in Hv. rewrite Hdec in Hv.
    assert (Hsize : size payload = Z.of_nat n).
    { rewrite <- Hdec, transform_size. unfold size. rewrite length_firstn. lia. }
    unfold NWM.EncryptDataFrame. apply try_catch_Ret.
    rewrite EncryptDataFrame_try_ok; [ | exact Hk | unfold size in *; lia ].
    rewrite Hsize. fold d. rewrite <- Hv, <- Hdec, transform_involutive.
    rewrite firstn_skipn. reflexivity.
Qed.

Lemma DecryptDataFrame_accepts_only_encryptions_witness :
  NWM.EncryptDataFrame example_payload example_key example_sender example_receiver 0x1234
  = Ret [xbb; x39; x10; xeb; x98; x21; xda; xe0; x5d; xd5; x16; x80; x52].
Proof.
  apply DecryptDataFrame_accepts_only_encryptions.
  - vm_compute. discriminate.
  - vm_compute. reflexivity.
  - discriminate.
Defined.

(** X3.  [DecryptDataFrame] returns either the empty vector or exactly
    eight bytes fewer than it was given. *)
Theorem DecryptDataFrame_result_length :
  forall (encrypted_payload ccmp_key : list byte) (sender receiver : MacAddress)
         (sequence_number : Z),
    size encrypted_payload <= SIZE_MAX ->
    exists payload,
      NWM.DecryptDataFrame encrypted_payload ccmp_key sender receiver sequence_number
      = Ret payload
      /\ (payload = [] \/ (length payload + 8 = length encrypted_payload)%nat).
Proof.
  intros frame ccmp_key sender receiver sequence_number Hmax.
  unfold NWM.DecryptDataFrame.
  destruct (DecryptDataFrame_try_cases frame ccmp_key sender receiver sequence_number Hmax)
    as [[e He]|(Hk & H8 & Hsz & Hv & Htry)].
  - rewrite He. exists []. split; [reflexivity|left; reflexivity].
  - rewrite Htry. eexists. split; [reflexivity|]. right.
    rewrite transform_length, length_firstn. lia.
Qed.

Lemma DecryptDataFrame_result_length_witness :
  exists payload,
    NWM.DecryptDataFrame [xbb; x39; x10; xeb; x98; x21; xda; xe0; x5d; xd5; x16; x80; x52]
      example_key example_sender example_receiver 0x1234 = Ret payload
    /\ (payload = [] \/ (length payload + 8 = 13)%nat).
Proof.
  apply (@DecryptDataFrame_result_length
           [xbb; x39; x10; xeb; x98; x21; xda; xe0; x5d; xd5; x16; x80; x52]).
  vm_compute. discriminate.
Defined.

(** X4.  A frame of more than 65535 + 8 bytes is refused whatever it
    holds: [DecryptDataFrame] returns the empty vector. *)
Theorem DecryptDataFrame_refuses_long_frames :
  forall (encrypted_payload ccmp_key : list byte) (sender receiver : MacAddress)
         (sequence_number : Z),
    65535 + 8 < size encrypted_payload ->
    size encrypted_payload <= SIZE_MAX ->
    NWM.DecryptDataFrame encrypted_payload ccmp_key sender receiver sequence_number
    = Ret [].
Proof.
  intros frame ccmp_key sender receiver sequence_number Hlong Hmax.
  unfold NWM.DecryptDataFrame.
  destruct (AES.IsValidKeyLength (length ccmp_key)) eqn:Hk.
  - rewrite DecryptDataFrame_try_refused; [reflexivity|exact Hk|].
    rewrite message_length_exact; unfold size in *; lia.
  - rewrite DecryptDataFrame_try_bad_key by exact Hk. reflexivity.
Qed.

Lemma DecryptDataFrame_refuses_long_frames_witness :
  NWM.DecryptDataFrame (repeat x00 (Z.to_nat 65544)) example_key example_sender
    example_receiver 0 = Ret [].
Proof.
  apply DecryptDataFrame_refuses_long_frames.
  - unfold size. rewrite repeat_length. lia.
  - unfold size, SIZE_MAX. rewrite repeat_length. lia.
Defined.

(** X5.  Under one key, sender, receiver and sequence number, two different
    payloads of at most 65535 bytes never encrypt to the same frame. *)
Theorem EncryptDataFrame_injective :
  forall (payload payload' ccmp_key : list byte) (sender receiver : MacAddress)
         (sequence_number : Z),
    length ccmp_key = 16%nat ->
    size payload <= 65535 ->
    size payload' <= 65535 ->
    NWM.EncryptDataFrame payload ccmp_key sender receiver sequence_number
    = NWM.EncryptDataFrame payload' ccmp_key sender receiver sequence_number ->
    payload = payload'.
Proof.
  intros payload payload' ccmp_key sender receiver sequence_number Hkey Hl Hl' Heq.
  apply valid_key_16 in Hkey.
  unfold NWM.EncryptDataFrame in Heq.
  rewrite !EncryptDataFrame_try_ok in Heq by assumption.
  cbn [try_catch] in Heq. apply Ret_inj in Heq.
  assert (Hlen : length payload = length payload').
  { apply (f_equal (@length byte)) in Heq.
    rewrite !length_app, !transform_length, !mac_length in Heq. lia. }
  apply app_inv_same_length in Heq; [|rewrite !transform_length; exact Hlen].
  destruct Heq as [Heq _].
  assert (Hsize : size payload' = size payload) by (unfold size; lia).
  rewrite Hsize in Heq.
  apply (f_equal (CCM.transform
                    (frame_cipher ccmp_key sender sequence_number (size payload)))) in Heq.
  rewrite !transform_involutive in Heq. exact Heq.
Qed.

Lemma EncryptDataFrame_injective_witness :
  example_payload = example_payload.
Proof.
  apply (@EncryptDataFrame_injective example_payload example_payload example_key
           example_sender example_receiver 9).
  - reflexivity.
  - vm_compute. discriminate.
  - vm_compute. discriminate.
  - reflexivity.
Defined.

(** X6.  Two payloads of the same length encrypted under the same key,
    sender and sequence number (the receivers may differ): the xor of the
    two cipher texts is the xor of the two payloads. *)
Theorem EncryptDataFrame_nonce_reuse :
  forall (payload payload' ccmp_key : list byte) (sender receiver receiver' : MacAddress)
         (sequence_number : Z),
    length ccmp_key = 16%nat ->
    size payload <= 65535 ->
    length payload' = length payload ->
    exists encrypted encrypted',
      NWM.EncryptDataFrame payload ccmp_key sender receiver sequence_number
      = Ret encrypted
      /\ NWM.EncryptDataFrame payload' ccmp_key sender receiver' sequence_number
         = Ret encrypted'
      /\ xor_bytes (firstn (length payload) encrypted)
           (firstn (length payload) encrypted')
         = xor_bytes payload payload'.
Proof.
  intros payload payload' ccmp_key sender receiver receiver' sequence_number Hkey Hl Hsame.
  apply valid_key_16 in Hkey.
  assert (Hl' : size payload' <= 65535) by (unfold size in *; lia).
  do 2 eexists. split; [|split].
  - unfold NWM.EncryptDataFrame. apply try_catch_Ret.
    apply EncryptDataFrame_try_ok; assumption.
  - unfold NWM.EncryptDataFrame. apply try_catch_Ret.
    apply EncryptDataFrame_try_ok; assumption.
  - rewrite <- (transform_length
                  (frame_cipher ccmp_key sender sequence_number (size payload)) payload)
      at 1.
    rewrite firstn_app, Nat.sub_diag, firstn_all, firstn_O, app_nil_r.
    rewrite <- Hsame.
    rewrite <- (transform_length
                  (frame_cipher ccmp_key sender sequence_number (size payload')) payload')
      at 1.
    rewrite firstn_app, Nat.sub_diag, firstn_all, firstn_O, app_nil_r.
    unfold CCM.transform. cbn [CCM.m_key frame_cipher]. unfold CCM.iv_block.
    cbn [CCM.m_L CCM.m_iv frame_cipher].
    apply xor_ProcessData.
Qed.

Lemma EncryptDataFrame_nonce_reuse_witness :
  exists encrypted encrypted',
    NWM.EncryptDataFrame example_payload example_key example_sender example_receiver 3
    = Ret encrypted
    /\ NWM.EncryptDataFrame [x77; x6f; x72; x6c; x64] example_key example_sender
         example_sender 3 = Ret encrypted'
    /\ xor_bytes (firstn (length example_payload) encrypted)
         (firstn (length example_payload) encrypted')
       = xor_bytes example_payload [x77; x6f; x72; x6c; x64].
Proof.
  apply EncryptDataFrame_nonce_reuse.
  - reflexivity.
  - vm_compute. discriminate.
  - reflexivity.
Defined.

(** X7.  The AAD determines both addresses: two pairs of sender and
    receiver with the same AAD are the same pair. *)
Theorem GenerateCCMPAAD_injective :
  forall sender receiver sender' receiver' : MacAddress,
    NWM.GenerateCCMPAAD sender receiver = NWM.GenerateCCMPAAD sender' receiver' ->
    sender = sender' /\ receiver = receiver'.
Proof.
  intros sender receiver sender' receiver' H.
  rewrite !GenerateCCMPAAD_bytes in H.
  apply app_inv_head in H.
  apply app_inv_same_length in H; [|reflexivity]. destruct H as [Hr H].
  apply app_inv_same_length in H; [|reflexivity]. destruct H as [Hs _].
  split; apply mac_bytes_inj; assumption.
Qed.

Lemma GenerateCCMPAAD_injective_witness :
  example_sender = example_sender /\ example_receiver = example_receiver.
Proof.
  apply (@GenerateCCMPAAD_injective example_sender example_receiver example_sender
           example_receiver).
  reflexivity.
Defined.

(** X8.  The nonce determines the sender and the 16-bit sequence number:
    two frames get the same nonce only if both are the same, so within one
    sender the nonce repeats exactly when the sequence number does. *)
Theorem nonce_injective :
  forall (sender sender' : MacAddress) (sequence_number sequence_number' : Z),
    0 <= sequence_number < 65536 ->
    0 <= sequence_number' < 65536 ->
    NWM.EncryptDataFrame_nonce sender sequence_number
    = NWM.EncryptDataFrame_nonce sender' sequence_number' ->
    sender = sender' /\ sequence_number = sequence_number'.
Proof.
  intros sender sender' n n' Hn Hn' H.
  rewrite !nonce_bytes in H.
  apply app_inv_head in H.
  apply app_inv_same_length in H; [|reflexivity]. destruct H as [Hs H].
  apply app_inv_head in H.
  split; [apply mac_bytes_inj; exact Hs|].
  apply (f_equal be_value) in H. rewrite !be_value_be_bytes_2 in H by assumption.
  exact H.
Qed.

Lemma nonce_injective_witness :
  example_sender = example_sender /\ 0x1234 = 0x1234.
Proof.
  apply (@nonce_injective example_sender example_sender 0x1234 0x1234).
  - lia.
  - lia.
  - reflexivity.
Defined.

(** X9.  Whatever the data size and the size of the structure, the two
    size members of the header are tied together modulo 2^16:
    securedata_size is protocol_size - 4 reduced to 16 bits, also when the
    sums have wrapped around. *)
Theorem securedata_size_follows_protocol_size :
  forall (L : Layout SecureDataHeader.t)
         (data_size channel dest_node_id src_node_id sequence_number : Z),
    let header :=
      NWM.GenerateSecureDataHeader_header data_size channel dest_node_id src_node_id
        sequence_number in
    SecureDataHeader.securedata_size header
    = (SecureDataHeader.protocol_size header - 4) mod 65536
    /\ 0 <= SecureDataHeader.protocol_size header < 65536
    /\ 0 <= SecureDataHeader.securedata_size header < 65536.
Proof.
  intros L data_size channel dest_node_id src_node_id sequence_number header.
  unfold header, NWM.GenerateSecureDataHeader_header.
  cbn [SecureDataHeader.securedata_size SecureDataHeader.protocol_size].
  split; [|split; unfold u16; apply Z.mod_pos_bound; lia].
  unfold size_sub, size_add. rewrite !u16_size_t. unfold u16.
  rewrite Zminus_mod_idemp_l.
  unfold size_t. rewrite (Zminus_mod ((data_size + Z.of_nat (sizeof SecureDataHeader.t))
                                       mod 2 ^ 64) 4 65536).
  fold (size_t (data_size + Z.of_nat (sizeof SecureDataHeader.t))).
  fold (u16 (size_t (data_size + Z.of_nat (sizeof SecureDataHeader.t)))).
  rewrite u16_size_t. unfold u16. rewrite <- Zminus_mod. reflexivity.
Qed.

(** X10.  [GenerateDataPayload] narrows the length of the payload to 16
    bits before it makes the header: two payloads whose lengths are equal
    modulo 65536 get byte for byte the same headers. *)
Theorem GenerateDataPayload_header_wraps :
  forall (LLC : Layout LLCHeader.t) (SDH : Layout SecureDataHeader.t)
         (SecureData : Z) (data data' : list byte)
         (channel dest_node src_node sequence_number : Z),
    size data' mod 65536 = size data mod 65536 ->
    firstn (sizeof LLCHeader.t + sizeof SecureDataHeader.t)
      (NWM.GenerateDataPayload SecureData data' channel dest_node src_node sequence_number)
    = firstn (sizeof LLCHeader.t + sizeof SecureDataHeader.t)
        (NWM.GenerateDataPayload SecureData data channel dest_node src_node
           sequence_number).
Proof.
  intros LLC SDH SecureData data data' channel dest_node src_node sequence_number Hmod.
  unfold NWM.GenerateDataPayload.
  replace (u16 (size data')) with (u16 (size data)) by (unfold u16; symmetry; exact Hmod).
  set (llc := NWM.GenerateLLCHeader SecureData).
  set (sdh := NWM.GenerateSecureDataHeader (u16 (size data)) channel dest_node src_node
                sequence_number).
  assert (Hl : length (llc ++ sdh)
               = (sizeof LLCHeader.t + sizeof SecureDataHeader.t)%nat).
  { rewrite length_app. unfold llc, sdh.
    rewrite GenerateLLCHeader_length, GenerateSecureDataHeader_length. reflexivity. }
  rewrite <- Hl.
  rewrite !(firstn_app (length (llc ++ sdh)) (llc ++ sdh)), Nat.sub_diag, !firstn_O.
  reflexivity.
Qed.

Lemma GenerateDataPayload_header_wraps_witness :
  firstn (2 + 12)
    (NWM.GenerateDataPayload (LLCHeader_layout := LLCHeader_spec_layout)
       (SecureDataHeader_layout := SecureDataHeader_spec_layout)
       0x876D (repeat x00 (Z.to_nat 65536)) 1 2 3 4)
  = firstn (2 + 12)
      (NWM.GenerateDataPayload (LLCHeader_layout := LLCHeader_spec_layout)
         (SecureDataHeader_layout := SecureDataHeader_spec_layout) 0x876D [] 1 2 3 4).
Proof.
  apply (@GenerateDataPayload_header_wraps LLCHeader_spec_layout SecureDataHeader_spec_layout
           0x876D [] (repeat x00 (Z.to_nat 65536)) 1 2 3 4).
  unfold size. rewrite repeat_length. rewrite Z2Nat.id by lia. reflexivity.
Defined.

(** X11.  The frame [GenerateDataPayload] returns is as long as the two
    headers and the payload together, the payload is what follows the
    headers, and while the payload and the secure-data header fit 16 bits
    the protocol_size written in the header is the number of bytes of the
    frame after the link-encapsulation header. *)
Theorem GenerateDataPayload_sizes :
  forall (LLC : Layout LLCHeader.t) (SDH : Layout SecureDataHeader.t)
         (SecureData : Z) (data : list byte)
         (channel dest_node src_node sequence_number : Z),
    let frame :=
      NWM.GenerateDataPayload SecureData data channel dest_node src_node sequence_number in
    length frame
    = (sizeof LLCHeader.t + sizeof SecureDataHeader.t + length data)%nat
    /\ skipn (sizeof LLCHeader.t + sizeof SecureDataHeader.t) frame = data
    /\ (size data + Z.of_nat (sizeof SecureDataHeader.t) <= 65535 ->
        SecureDataHeader.protocol_size
          (NWM.GenerateSecureDataHeader_header (u16 (size data)) channel dest_node src_node
             sequence_number)
        = Z.of_nat (length frame) - Z.of_nat (sizeof LLCHeader.t)).
Proof.
  intros LLC SDH SecureData data channel dest_node src_node sequence_number frame.
  unfold frame, NWM.GenerateDataPayload.
  set (llc := NWM.GenerateLLCHeader SecureData).
  set (sdh := NWM.GenerateSecureDataHeader (u16 (size data)) channel dest_node src_node
                sequence_number).
  assert (Hl : length (llc ++ sdh)
               = (sizeof LLCHeader.t + sizeof SecureDataHeader.t)%nat).
  { rewrite length_app. unfold llc, sdh.
    rewrite GenerateLLCHeader_length, GenerateSecureDataHeader_length. reflexivity. }
  assert (Hlen : length ((llc ++ sdh) ++ data)
                 = (sizeof LLCHeader.t + sizeof SecureDataHeader.t + length data)%nat)
    by (rewrite length_app, Hl; reflexivity).
  split; [exact Hlen|]. split.
  - rewrite <- Hl. rewrite skipn_app, Nat.sub_diag, skipn_all, skipn_O. reflexivity.
  - intros Hfit. rewrite Hlen.
    unfold NWM.GenerateSecureDataHeader_header. cbn [SecureDataHeader.protocol_size].
    unfold size_add. rewrite u16_size_t. unfold u16, size in *.
    rewrite (Z.mod_small (Z.of_nat (length data))) by lia.
    rewrite Z.mod_small by lia. lia.
Qed.

Lemma GenerateDataPayload_sizes_witness :
  SecureDataHeader.protocol_size
    (NWM.GenerateSecureDataHeader_header (SecureDataHeader_layout := SecureDataHeader_spec_layout)
       (u16 (size example_payload)) 1 2 3 4)
  = Z.of_nat
      (length (NWM.GenerateDataPayload (LLCHeader_layout := LLCHeader_spec_layout)
                 (SecureDataHeader_layout := SecureDataHeader_spec_layout)
                 0x876D example_payload 1 2 3 4))
    - Z.of_nat (sizeof LLCHeader.t (Layout := LLCHeader_spec_layout)).
Proof.
  apply (proj2 (proj2 (@GenerateDataPayload_sizes LLCHeader_spec_layout
                         SecureDataHeader_spec_layout 0x876D example_payload 1 2 3 4))).
  vm_compute. discriminate.
Defined.

(** X12.  The derived key is 16 bytes long, and the derivation can be
    undone with the key of key slot 0x2D: running the same AES-CTR step on
    the derived key gives MD5(passphrase) back.  So on one network two
    passphrases with different digests never share a key. *)
Theorem GenerateDataCCMPKey_invertible :
  forall (L : Layout DataFrameCryptoCTR.t) (GetNormalKey : Z -> list byte)
         (passphrase passphrase' : list byte) (network_info : NetworkInfo.t),
    length (NWM.GenerateDataCCMPKey GetNormalKey passphrase network_info) = 16%nat
    /\ CTR_Mode.ProcessData (resize AES.BLOCKSIZE (GetNormalKey NWM.UDSDataCryptoAESKeySlot))
         (NWM.GetDataCryptoCTR network_info) 0
         (NWM.GenerateDataCCMPKey GetNormalKey passphrase network_info)
       = MD5.CalculateDigest passphrase
    /\ (MD5.CalculateDigest passphrase <> MD5.CalculateDigest passphrase' ->
        NWM.GenerateDataCCMPKey GetNormalKey passphrase network_info
        <> NWM.GenerateDataCCMPKey GetNormalKey passphrase' network_info).
Proof.
  intros L GetNormalKey passphrase passphrase' network_info.
  split; [apply GenerateDataCCMPKey_length|]. split.
  - unfold NWM.GenerateDataCCMPKey. apply ProcessData_involutive.
  - intros Hne Heq. apply Hne. unfold NWM.GenerateDataCCMPKey in Heq.
    apply (f_equal (CTR_Mode.ProcessData
                      (resize AES.BLOCKSIZE (GetNormalKey NWM.UDSDataCryptoAESKeySlot))
                      (NWM.GetDataCryptoCTR network_info) 0)) in Heq.
    rewrite !ProcessData_involutive in Heq. exact Heq.
Qed.

Lemma GenerateDataCCMPKey_invertible_witness :
  NWM.GenerateDataCCMPKey (DataFrameCryptoCTR_layout := example_DataFrameCryptoCTR_layout)
    (fun _ => example_key) [] example_network
  <> NWM.GenerateDataCCMPKey (DataFrameCryptoCTR_layout := example_DataFrameCryptoCTR_layout)
       (fun _ => example_key) [x61; x62; x63] example_network.
Proof.
  apply (proj2 (proj2 (@GenerateDataCCMPKey_invertible example_DataFrameCryptoCTR_layout
                         (fun _ => example_key) [] [x61; x62; x63] example_network))).
  vm_compute. discriminate.
Defined.

(** X13.  The outbound and inbound paths fit together: with the key that
    [GenerateDataCCMPKey] derives, a payload of at most 65535 bytes is
    encrypted, the result is framed by [GenerateDataPayload], and what
    follows the two headers of the frame decrypts to the payload. *)
Theorem derived_key_frame_roundtrip :
  forall (CTR : Layout DataFrameCryptoCTR.t) (LLC : Layout LLCHeader.t)
         (SDH : Layout SecureDataHeader.t) (GetNormalKey : Z -> list byte)
         (passphrase : list byte) (network_info : NetworkInfo.t)
         (payload : list byte) (sender receiver : MacAddress)
         (SecureData channel dest_node src_node sequence_number : Z),
    size payload <= 65535 ->
    let ccmp_key := NWM.GenerateDataCCMPKey GetNormalKey passphrase network_info in
    exists encrypted,
      NWM.EncryptDataFrame payload ccmp_key sender receiver sequence_number
      = Ret encrypted
      /\ NWM.DecryptDataFrame
           (skipn (sizeof LLCHeader.t + sizeof SecureDataHeader.t)
              (NWM.GenerateDataPayload SecureData encrypted channel dest_node src_node
                 sequence_number))
           ccmp_key sender receiver sequence_number
         = Ret payload.
Proof.
  intros CTR LLC SDH GetNormalKey passphrase network_info payload sender receiver
    SecureData channel dest_node src_node sequence_number Hlen ccmp_key.
  assert (Hk : AES.IsValidKeyLength (length ccmp_key) = true).
  { unfold ccmp_key. rewrite GenerateDataCCMPKey_length. reflexivity. }
  eexists. split.
  - unfold NWM.EncryptDataFrame. apply try_catch_Ret.
    apply EncryptDataFrame_try_ok; assumption.
  - unfold NWM.GenerateDataPayload.
    set (encrypted := CCM.transform _ payload ++ CCM.mac _ _ payload).
    set (llc := NWM.GenerateLLCHeader SecureData).
    set (sdh := NWM.GenerateSecureDataHeader (u16 (size encrypted)) channel dest_node
                  src_node sequence_number).
    assert (Hl : length (llc ++ sdh)
                 = (sizeof LLCHeader.t + sizeof SecureDataHeader.t)%nat).
    { rewrite length_app. unfold llc, sdh.
      rewrite GenerateLLCHeader_length, GenerateSecureDataHeader_length. reflexivity. }
    rewrite <- Hl. rewrite skipn_app, Nat.sub_diag, skipn_all, skipn_O. cbn [app].
    unfold encrypted, NWM.DecryptDataFrame. apply try_catch_Ret.
    rewrite DecryptDataFrame_try_frame;
      [ | exact Hk | apply mac_length | rewrite transform_size; exact Hlen ].
    rewrite transform_size, transform_involutive, bytes_eqb_refl. reflexivity.
Qed.

Lemma derived_key_frame_roundtrip_witness :
  exists encrypted,
    NWM.EncryptDataFrame example_payload
      (NWM.GenerateDataCCMPKey (DataFrameCryptoCTR_layout := example_DataFrameCryptoCTR_layout)
         (fun _ => example_key) [x74; x65; x73; x74] example_network)
      example_sender example_receiver 7 = Ret encrypted
    /\ NWM.DecryptDataFrame
         (skipn (2 + 12)
            (NWM.GenerateDataPayload (LLCHeader_layout := LLCHeader_spec_layout)
               (SecureDataHeader_layout := SecureDataHeader_spec_layout)
               0x876D encrypted 1 2 3 7))
         (NWM.GenerateDataCCMPKey (DataFrameCryptoCTR_layout := example_DataFrameCryptoCTR_layout)
            (fun _ => example_key) [x74; x65; x73; x74] example_network)
         example_sender example_receiver 7
       = Ret example_payload.
Proof.
  apply (@derived_key_frame_roundtrip example_DataFrameCryptoCTR_layout LLCHeader_spec_layout
           SecureDataHeader_spec_layout (fun _ => example_key) [x74; x65; x73; x74]
           example_network example_payload example_sender example_receiver 0x876D 1 2 3 7).
  vm_compute. discriminate.
Defined.

(** X14.  Any change confined to the last eight bytes of an encrypted
    frame, not only a single bit, is refused: a frame of the same length
    with the same cipher text and another tag decrypts to the empty vector. *)
Theorem DecryptDataFrame_refuses_other_tags :
  forall (payload encrypted tampered ccmp_key : list byte)
         (sender receiver : MacAddress) (sequence_number : Z),
    NWM.EncryptDataFrame_try payload ccmp_key sender receiver sequence_number
    = Ret encrypted ->
    length tampered = length encrypted ->
    firstn (length payload) tampered = firstn (length payload) encrypted ->
    tampered <> encrypted ->
    NWM.DecryptDataFrame tampered ccmp_key sender receiver sequence_number = Ret [].
Proof.
  intros payload encrypted tampered ccmp_key sender receiver sequence_number
    Henc Hlen Hprefix Hne.
  destruct (EncryptDataFrame_try_Ret _ _ _ _ _ Henc) as (Hk & Hl & ->).
  set (d := frame_cipher ccmp_key sender sequence_number (size payload)) in *.
  set (aad := NWM.GenerateCCMPAAD sender receiver) in *.
  rewrite <- (transform_length d payload) in Hprefix.
  rewrite (firstn_app (length (CCM.transform d payload)) (CCM.transform d payload)),
    Nat.sub_diag, firstn_all, firstn_O, app_nil_r in Hprefix.
  rewrite <- (firstn_skipn (length (CCM.transform d payload)) tampered) in Hne, Hlen |- *.
  rewrite Hprefix in Hne, Hlen |- *.
  set (tag' := skipn (length (CCM.transform d payload)) tampered) in *.
  assert (Htl : length tag' = 8%nat).
  { rewrite !length_app, mac_length in Hlen. lia. }
  assert (Htag : tag' <> CCM.mac d aad payload) by (intros E; apply Hne; rewrite E; reflexivity).
  unfold NWM.DecryptDataFrame.
  rewrite DecryptDataFrame_try_frame;
    [ | exact Hk | exact Htl | rewrite transform_size; exact Hl ].
  rewrite transform_size. fold d. fold aad. rewrite transform_involutive.
  rewrite (bytes_eqb_neq Htag). reflexivity.
Qed.

Lemma DecryptDataFrame_refuses_other_tags_witness :
  NWM.DecryptDataFrame [xbb; x39; x10; xeb; x98; x00; x00; x00; x00; x00; x00; x00; x00]
    example_key example_sender example_receiver 0x1234 = Ret [].
Proof.
  apply (@DecryptDataFrame_refuses_other_tags example_payload
           [xbb; x39; x10; xeb; x98; x21; xda; xe0; x5d; xd5; x16; x80; x52]).
  - vm_compute. reflexivity.
  - reflexivity.
  - reflexivity.
  - discriminate.
Defined.

End FurtherProperties.
